(** * look_to_point: click a pixel, make REEM look in that direction

    A shallow embedding of [src/look_to_point.cpp] and the properties its
    specification states about it.

    Conventions of the embedding:
    - a C++ [double] is an IEEE-754 binary64 number, taken from the
      Standard Library's bit-level specification [spec_float]
      (precision 53, exponent bound 1024, round to nearest even);
    - a C++ [int] is a [Z]; the program never does integer arithmetic on
      pixel coordinates, it only converts them to [double];
    - instants and durations are integers counting nanoseconds, the
      resolution of [ros::Time] and [ros::Duration]; the clock is a logical
      one, moved only by the sleeps and the bounded waits of the program,
      so that callbacks and logging take no time;
    - the three globals of the program and the observable effects on the
      middleware live in one record [Proc], threaded through a small
      state-and-error monad; loops that need not end take a budget [fuel]
      of iterations;
    - the middleware (roscpp, actionlib, OpenCV highgui) is not part of
      the repository: its calls are answered by an environment [Env]. *)

From Stdlib Require Import ZArith List String Bool Lia DecimalString.
From Stdlib Require Import SpecFloat.
Import ListNotations.

Local Open Scope Z_scope.

(** ** Doubles *)

Module Double.

Definition prec : Z := 53.
Definition emax : Z := 1024.

Definition double := spec_float.

Definition sub : double -> double -> double := SFsub prec emax.
Definition mul : double -> double -> double := SFmul prec emax.
Definition div : double -> double -> double := SFdiv prec emax.
Definition ltb : double -> double -> bool := SFltb.
Definition eqb : double -> double -> bool := SFeqb.

(** Conversion [int -> double], as in [u - m.at<double>(0,2)]. *)
Definition of_int (n : Z) : double := binary_normalize prec emax n 0 false.

(** The literals of the program. *)
Definition zero : double := S754_zero false.                        (* 0.0 *)
Definition one  : double := S754_finite false 4503599627370496 (-52). (* 1.0 *)

(** The range of a 32-bit [int]. *)
Definition int_range (n : Z) : Prop := -2147483648 <= n <= 2147483647.

End Double.

Abbreviation double := Double.double.

(** ** cv::Mat, restricted to one channel of CV_64F *)

Record Mat := { rows : nat; cols : nat; data : list double }.

(** A default-constructed [cv::Mat]: no rows, no columns, no data. *)
Definition Mat_empty : Mat := {| rows := 0; cols := 0; data := [] |}.

(** [cv::Mat::zeros(r, c, CV_64F)]. *)
Definition Mat_zeros (r c : nat) : Mat :=
  {| rows := r; cols := c; data := repeat Double.zero (r * c) |}.

Definition Mat_in_range (m : Mat) (i j : nat) : bool :=
  (i <? rows m)%nat && (j <? cols m)%nat.

(** [m.at<double>(i, j)] read.  Outside the matrix the access is undefined
    behaviour in C++: [None]. *)
Definition Mat_at (m : Mat) (i j : nat) : option double :=
  if Mat_in_range m i j then nth_error (data m) (i * cols m + j)%nat else None.

Fixpoint list_set {A : Type} (l : list A) (n : nat) (x : A) : list A :=
  match l, n with
  | [], _ => []
  | _ :: t, O => x :: t
  | h :: t, S k => h :: list_set t k x
  end.

(** [m.at<double>(i, j) = x]. *)
Definition Mat_set (m : Mat) (i j : nat) (x : double) : option Mat :=
  if Mat_in_range m i j
  then Some {| rows := rows m; cols := cols m;
               data := list_set (data m) (i * cols m + j)%nat x |}
  else None.

(** ** Messages *)

(** [sensor_msgs::CameraInfo], of which only [K] is read.  [K] is a
    [boost::array<double, 9>]: the size is part of the type. *)
Record CameraInfo := { K : list double; K_size : List.length K = 9%nat }.

(** [msg->K[i]]; every index the program uses is below 9. *)
Definition K_at (msg : CameraInfo) (i : nat) : double := nth i (K msg) Double.zero.

Record Point := { point_x : double; point_y : double; point_z : double }.

Record Header := { frame_id : string; stamp : Z }.

(** [geometry_msgs::PointStamped]. *)
Record PointStamped := { header : Header; point : Point }.

Record Vector3 := { vx : double; vy : double; vz : double }.

(** [pr2_controllers_msgs::PointHeadGoal]; [min_duration] is a
    [ros::Duration], in nanoseconds. *)
Record PointHeadGoal := {
  target : PointStamped;
  pointing_axis : Vector3;
  pointing_frame : string;
  min_duration : Z;
  max_velocity : double
}.

(** ** Constants of the program *)

Definition windowName      : string := "REEM left eye".
Definition cameraFrame     : string := "/stereo_optical_frame".
Definition imageTopic      : string := "/stereo/left/image".
Definition cameraInfoTopic : string := "/stereo/left/camera_info".
Definition pointHeadAction : string := "/head_traj_controller/point_head_action".

Definition EXIT_SUCCESS : Z := 0.
Definition EXIT_FAILURE : Z := 1.

(** OpenCV's mouse event codes. *)
Definition EVENT_MOUSEMOVE   : Z := 0.
Definition EVENT_LBUTTONDOWN : Z := 1.
Definition EVENT_RBUTTONDOWN : Z := 2.
Definition EVENT_MBUTTONDOWN : Z := 3.
Definition EVENT_LBUTTONUP   : Z := 4.

(** Durations, in nanoseconds. *)
Definition seconds (n : Z) : Z := n * 1000000000.
Definition millis  (n : Z) : Z := n * 1000000.

(** ** Observable effects *)

Inductive Event :=
| EvInfo (text : string)                 (* ROS_INFO / ROS_INFO_STREAM *)
| EvDebug (text : string)                (* ROS_DEBUG *)
| EvFatal (text : string)                (* ROS_FATAL *)
| EvWaitForValid (timeout : Z)           (* ros::Time::waitForValid *)
| EvSubscribe (topic : string)           (* nh.subscribe / it.subscribe *)
| EvShutdownSubscriber (topic : string)  (* Subscriber::shutdown *)
| EvSpinOnce                             (* ros::spinOnce *)
| EvCameraInfo (msg : CameraInfo)        (* a camera_info message is handed
                                            to its callback *)
| EvSleep (d : Z)                        (* ros::Duration(d).sleep *)
| EvNewClient (action : string)          (* new PointHeadClient(action) *)
| EvWaitForServer (timeout : Z)          (* actionClient->waitForServer *)
| EvSendGoal (goal : PointHeadGoal)      (* pointHeadClient->sendGoal *)
| EvNamedWindow (name : string)          (* cv::namedWindow *)
| EvSetMouseCallback (name : string)     (* cv::setMouseCallback *)
| EvImshow (name : string)               (* cv::imshow *)
| EvWaitKey (ms : Z)                     (* cv::waitKey *)
| EvDestroyWindow (name : string).       (* cv::destroyWindow *)

(** ** Process state: the globals, the clock and the trace of effects *)

Record Proc := {
  cameraIntrinsics   : Mat;
  intrinsicsReceived : bool;
  pointHeadClient    : option string;  (* [None] is the null pointer *)
  cameraInfoSub      : bool;           (* [main]'s subscriber is active *)
  now                : Z;
  trace              : list Event
}.

(** Globals are zero-initialised or default-constructed before [main]. *)
Definition Proc_init : Proc :=
  {| cameraIntrinsics := Mat_empty; intrinsicsReceived := false;
     pointHeadClient := None; cameraInfoSub := false; now := 0; trace := [] |}.

Definition set_cameraIntrinsics (m : Mat) (p : Proc) : Proc :=
  {| cameraIntrinsics := m; intrinsicsReceived := intrinsicsReceived p;
     pointHeadClient := pointHeadClient p; cameraInfoSub := cameraInfoSub p;
     now := now p; trace := trace p |}.

Definition set_intrinsicsReceived (b : bool) (p : Proc) : Proc :=
  {| cameraIntrinsics := cameraIntrinsics p; intrinsicsReceived := b;
     pointHeadClient := pointHeadClient p; cameraInfoSub := cameraInfoSub p;
     now := now p; trace := trace p |}.

Definition set_pointHeadClient (c : option string) (p : Proc) : Proc :=
  {| cameraIntrinsics := cameraIntrinsics p;
     intrinsicsReceived := intrinsicsReceived p;
     pointHeadClient := c; cameraInfoSub := cameraInfoSub p;
     now := now p; trace := trace p |}.

Definition set_cameraInfoSub (b : bool) (p : Proc) : Proc :=
  {| cameraIntrinsics := cameraIntrinsics p;
     intrinsicsReceived := intrinsicsReceived p;
     pointHeadClient := pointHeadClient p; cameraInfoSub := b;
     now := now p; trace := trace p |}.

Definition set_now (t : Z) (p : Proc) : Proc :=
  {| cameraIntrinsics := cameraIntrinsics p;
     intrinsicsReceived := intrinsicsReceived p;
     pointHeadClient := pointHeadClient p; cameraInfoSub := cameraInfoSub p;
     now := t; trace := trace p |}.

Definition add_event (e : Event) (p : Proc) : Proc :=
  {| cameraIntrinsics := cameraIntrinsics p;
     intrinsicsReceived := intrinsicsReceived p;
     pointHeadClient := pointHeadClient p; cameraInfoSub := cameraInfoSub p;
     now := now p; trace := trace p ++ [e] |}.

(** ** The monad: state, C++ exceptions, undefined behaviour, divergence *)

Inductive Result (A : Type) :=
| Ok (a : A) (p : Proc)          (* normal completion *)
| Throw (what : string) (p : Proc) (* a C++ exception propagates *)
| Undefined                      (* undefined behaviour was reached *)
| Blocked (p : Proc)             (* the call never returns *)
| OutOfFuel.                     (* the model's loop budget ran out *)

Arguments Ok {A} a p.
Arguments Throw {A} what p.
Arguments Undefined {A}.
Arguments Blocked {A} p.
Arguments OutOfFuel {A}.

Definition M (A : Type) : Type := Proc -> Result A.

Definition ret {A : Type} (a : A) : M A := fun p => Ok a p.

Definition bind {A B : Type} (m : M A) (f : A -> M B) : M B :=
  fun p =>
    match m p with
    | Ok a p' => f a p'
    | Throw w p' => Throw w p'
    | Undefined => Undefined
    | Blocked p' => Blocked p'
    | OutOfFuel => OutOfFuel
    end.

Declare Scope proc_scope.
Delimit Scope proc_scope with proc.
Notation "x <- m ;; k" := (bind m (fun x => k))
  (at level 61, m at next level, right associativity) : proc_scope.
Notation "m ;; k" := (bind m (fun _ => k))
  (at level 61, right associativity) : proc_scope.
Local Open Scope proc_scope.

Definition gets {A : Type} (f : Proc -> A) : M A := fun p => Ok (f p) p.
Definition modify (f : Proc -> Proc) : M unit := fun p => Ok tt (f p).
Definition log (e : Event) : M unit := modify (add_event e).
Definition throw {A : Type} (what : string) : M A := fun p => Throw what p.
Definition undefined {A : Type} : M A := fun _ => Undefined.

Definition lift_option {A : Type} (o : option A) : M A :=
  match o with
  | Some a => ret a
  | None => undefined
  end.

(** [ros::Time::now()]. *)
Definition ros_Time_now : M Z := gets now.

(** [cameraIntrinsics.at<double>(i, j)] as an rvalue. *)
Definition intrinsics_at (i j : nat) : M double :=
  m <- gets cameraIntrinsics ;; lift_option (Mat_at m i j).

(** [cameraIntrinsics.at<double>(i, j) = x]. *)
Definition intrinsics_set (i j : nat) (x : double) : M unit :=
  m <- gets cameraIntrinsics ;;
  m' <- lift_option (Mat_set m i j x) ;;
  modify (set_cameraIntrinsics m').

(** [pointHeadClient->sendGoal(goal)]: fire and forget; dereferencing a
    null client is undefined. *)
Definition sendGoal (goal : PointHeadGoal) : M unit :=
  c <- gets pointHeadClient ;;
  match c with
  | Some _ => log (EvSendGoal goal)
  | None => undefined
  end.

(** Text of [operator<<] on an [int]. *)
Definition show_int (n : Z) : string := NilZero.string_of_int (Z.to_int n).

Definition pixel_selected (u v : Z) : string :=
  ("Pixel selected (" ++ show_int u ++ ", " ++ show_int v
   ++ ") Making REEM look to that direction")%string.

(** ** onMouse: OpenCV callback for mouse events on the window *)

Definition onMouse (event u v flags : Z) : M unit :=
  if negb (event =? EVENT_LBUTTONDOWN) then ret tt
  else
    log (EvInfo (pixel_selected u v)) ;;
    t <- ros_Time_now ;;
    let pointStamped_header := {| frame_id := cameraFrame; stamp := t |} in
    cx <- intrinsics_at 0 2 ;;
    fx <- intrinsics_at 0 0 ;;
    let x := Double.div (Double.sub (Double.of_int u) cx) fx in
    cy <- intrinsics_at 1 2 ;;
    fy <- intrinsics_at 1 1 ;;
    let y := Double.div (Double.sub (Double.of_int v) cy) fy in
    let Z := Double.one in
    let pointStamped :=
      {| header := pointStamped_header;
         point := {| point_x := Double.mul x Z;
                     point_y := Double.mul y Z;
                     point_z := Z |} |} in
    let goal :=
      {| pointing_frame := cameraFrame;
         pointing_axis := {| vx := Double.zero; vy := Double.zero;
                             vz := Double.one |};
         min_duration := millis 500;
         max_velocity := Double.one;
         target := pointStamped |} in
    sendGoal goal.

(** ** getCameraIntrinsics: callback of the camera_info topic *)

Definition getCameraIntrinsics (msg : CameraInfo) : M unit :=
  modify (set_cameraIntrinsics (Mat_zeros 3 3)) ;;
  intrinsics_set 0 0 (K_at msg 0) ;;
  intrinsics_set 1 1 (K_at msg 4) ;;
  intrinsics_set 0 2 (K_at msg 2) ;;
  intrinsics_set 1 2 (K_at msg 5) ;;
  intrinsics_set 2 2 (Double.of_int 1) ;;
  modify (set_intrinsicsReceived true).

(** ** The environment: what the middleware answers

    [stop_at] is the instant from which [ros::ok()] is false (a shutdown
    request is never withdrawn); [valid_at] the instant from which the time
    source is valid; [server_at] the instant from which the head controller
    action server is connected.  [camera_info t] is the message held by the
    subscription queue of the camera_info topic, whose size is 1, when the
    callbacks are pumped at instant [t].  [incoming] are the messages that
    arrive while [ros::spin()] runs, in order of arrival: images, each with
    the mouse events the window receives while it is shown, and the
    calibration messages the camera goes on publishing. *)

Record MouseEvent := { me_event : Z; me_u : Z; me_v : Z; me_flags : Z }.

Record Frame := { decodable : bool; mouse : list MouseEvent }.

Inductive Payload :=
| Image (f : Frame)
| Calibration (msg : CameraInfo).

Record Incoming := { arrival : Z; payload : Payload }.

Record Env := {
  stop_at     : option Z;
  valid_at    : option Z;
  server_at   : option Z;
  camera_info : Z -> option CameraInfo;
  incoming    : list Incoming
}.

Definition reached (o : option Z) (t : Z) : bool :=
  match o with
  | Some s => s <=? t
  | None => false
  end.

(** [ros::ok()]. *)
Definition ros_ok (env : Env) : M bool :=
  t <- gets now ;; ret (negb (reached (stop_at env) t)).

(** A bounded wait for a condition that holds from instant [o] on: it
    returns [true] as soon as the condition holds, [false] when [timeout]
    has elapsed first. *)
Definition wait_until (o : option Z) (timeout : Z) : M bool :=
  fun p =>
    let deadline := now p + timeout in
    match o with
    | Some s =>
        if s <=? deadline then Ok true (set_now (Z.max (now p) s) p)
        else Ok false (set_now deadline p)
    | None => Ok false (set_now deadline p)
    end.

(** [ros::Time::waitForValid(timeout)]. *)
Definition waitForValid (env : Env) (timeout : Z) : M bool :=
  log (EvWaitForValid timeout) ;; wait_until (valid_at env) timeout.

(** [actionClient->waitForServer(timeout)]. *)
Definition waitForServer (env : Env) (timeout : Z) : M bool :=
  log (EvWaitForServer timeout) ;; wait_until (server_at env) timeout.

(** [ros::Duration(d).sleep()]. *)
Definition sleep (d : Z) : M unit :=
  log (EvSleep d) ;; modify (fun p => set_now (now p + d) p).

(** A message of the camera_info topic reaches [getCameraIntrinsics] only
    while the subscriber [main] created is active. *)
Definition deliver_camera_info (msg : CameraInfo) : M unit :=
  active <- gets cameraInfoSub ;;
  if active then log (EvCameraInfo msg) ;; getCameraIntrinsics msg
  else ret tt.

(** [ros::spinOnce()], called while no image subscriber exists yet. *)
Definition spinOnce (env : Env) : M unit :=
  log EvSpinOnce ;;
  t <- gets now ;;
  match camera_info env t with
  | Some msg => deliver_camera_info msg
  | None => ret tt
  end.

(** [while (cond) body], with the locals of the loop carried along. *)
Fixpoint while_ {L : Type} (fuel : nat) (cond : L -> M bool) (body : L -> M L)
    (l : L) : M L :=
  match fuel with
  | O => fun _ => OutOfFuel
  | S k =>
      c <- cond l ;;
      if c then (l' <- body l ;; while_ k cond body l') else ret l
  end.

(** ** createPointHeadClient

    The reference parameter [actionClient] is bound to the global
    [pointHeadClient] at the only call. *)

Definition max_iterations : Z := 3.

(** Condition and body of the loop that waits for the action server. *)
Definition server_wait_cond (env : Env) (iterations : Z) : M bool :=
  up <- waitForServer env (seconds 2) ;;
  if negb up then
    ok <- ros_ok env ;;
    if ok then ret (iterations <? max_iterations) else ret false
  else ret false.

Definition server_wait_body (iterations : Z) : M Z :=
  log (EvDebug "Waiting for the point_head_action server to come up") ;;
  ret (iterations + 1).

Definition server_unavailable : string :=
  "Error in createPointHeadClient: head controller action server not available".

Definition createPointHeadClient (fuel : nat) (env : Env) : M unit :=
  log (EvNewClient pointHeadAction) ;;
  modify (set_pointHeadClient (Some pointHeadAction)) ;;
  iterations <- while_ fuel (server_wait_cond env) server_wait_body 0 ;;
  if iterations =? max_iterations then throw server_unavailable else ret tt.

(** ** imageCallback

    [cv_bridge::toCvCopy] throws on an image it cannot convert.  The mouse
    events of the window are delivered from inside [cv::waitKey]. *)

Fixpoint deliver_mouse (evs : list MouseEvent) : M unit :=
  match evs with
  | [] => ret tt
  | e :: rest =>
      onMouse (me_event e) (me_u e) (me_v e) (me_flags e) ;; deliver_mouse rest
  end.

Definition imageCallback (f : Frame) : M unit :=
  if decodable f then
    log (EvImshow windowName) ;;
    log (EvWaitKey 15) ;;
    deliver_mouse (mouse f) ;;
    modify (fun p => set_now (now p + millis 15) p)
  else throw "cv_bridge::Exception".

(** The callback an incoming message is handed to. *)
Definition dispatch (i : Incoming) : M unit :=
  match payload i with
  | Image f => imageCallback f
  | Calibration msg => deliver_camera_info msg
  end.

(** [ros::spin()]: serves the subscribers until shutdown is requested; it
    never returns if shutdown is never requested. *)
Fixpoint spin (env : Env) (msgs : list Incoming) : M unit :=
  match msgs with
  | [] =>
      fun p =>
        match stop_at env with
        | Some s => Ok tt (set_now (Z.max (now p) s) p)
        | None => Blocked p
        end
  | i :: rest =>
      fun p =>
        let t := Z.max (now p) (arrival i) in
        if reached (stop_at env) t
        then Ok tt (set_now (Z.max (now p) (match stop_at env with
                                            | Some s => s
                                            | None => t
                                            end)) p)
        else (dispatch i ;; spin env rest) (set_now t p)
  end.

(** ** main

    [ros::init], the [ros::NodeHandle] and the [ImageTransport] object have
    no effect the properties below speak of and are left out; [main] is cut
    at the two places where its phases change. *)

(** Condition and body of the loop that waits for the camera intrinsics. *)
Definition intrinsics_wait_cond (env : Env) (_ : unit) : M bool :=
  ok <- ros_ok env ;;
  if ok then (received <- gets intrinsicsReceived ;; ret (negb received))
  else ret false.

Definition intrinsics_wait_body (env : Env) (_ : unit) : M unit :=
  spinOnce env ;; sleep (millis 200).

Definition wait_intrinsics (fuel : nat) (env : Env) : M unit :=
  while_ fuel (intrinsics_wait_cond env) (intrinsics_wait_body env) tt.

(** [main] from [cameraInfoSub.shutdown()] down to its end. *)
Definition main_after_intrinsics (fuel : nat) (env : Env) : M Z :=
  log (EvShutdownSubscriber cameraInfoTopic) ;;
  modify (set_cameraInfoSub false) ;;
  createPointHeadClient fuel env ;;
  log (EvNamedWindow windowName) ;;
  log (EvSetMouseCallback windowName) ;;
  log (EvInfo ("Subscribing to " ++ imageTopic ++ " ...")%string) ;;
  log (EvSubscribe imageTopic) ;;
  spin env (incoming env) ;;
  log (EvDestroyWindow windowName) ;;
  ret EXIT_SUCCESS.

(** [main] from the subscription to camera_info down to its end. *)
Definition main_after_clock (fuel : nat) (env : Env) : M Z :=
  log (EvSubscribe cameraInfoTopic) ;;
  modify (set_cameraInfoSub true) ;;
  modify (set_intrinsicsReceived false) ;;
  log (EvInfo "Waiting for camera intrinsics ... ") ;;
  wait_intrinsics fuel env ;;
  main_after_intrinsics fuel env.

Definition main (fuel : nat) (env : Env) : M Z :=
  log (EvInfo "Starting look_to_point application ...") ;;
  valid <- waitForValid env (seconds 5) ;;
  if negb valid then
    log (EvFatal "Timed-out waiting for valid time.") ;;
    ret EXIT_FAILURE
  else main_after_clock fuel env.

(** A run of the program from its initial state. *)
Definition run (fuel : nat) (env : Env) : Result Z := main fuel env Proc_init.

(** ** The specification's reading of the projection (section 4.1)

    [project_spec] follows the words of the specification:
    [x = (u - cx) / fx], [y = (v - cy) / fy], a fixed depth [Z = 1.0], and
    the point [(x*Z, y*Z, Z)].  The theorems compare it with what
    [onMouse] sends. *)

Definition project_spec (u v : Z) (fx fy cx cy : double) : Point :=
  let x := Double.div (Double.sub (Double.of_int u) cx) fx in
  let y := Double.div (Double.sub (Double.of_int v) cy) fy in
  let Z := Double.one in
  {| point_x := Double.mul x Z; point_y := Double.mul y Z; point_z := Z |}.

(** The matrix a calibration message describes, row by row. *)
Definition intrinsics_of (msg : CameraInfo) : Mat :=
  {| rows := 3; cols := 3;
     data := [K_at msg 0; Double.zero; K_at msg 2;
              Double.zero; K_at msg 4; K_at msg 5;
              Double.zero; Double.zero; Double.one] |}.

(** The intrinsic matrix holds [fx], [fy], [cx], [cy] where [onMouse]
    reads them, and the action client exists. *)
Definition populated (p : Proc) (fx fy cx cy : double) : Prop :=
  Mat_at (cameraIntrinsics p) 0 0 = Some fx /\
  Mat_at (cameraIntrinsics p) 1 1 = Some fy /\
  Mat_at (cameraIntrinsics p) 0 2 = Some cx /\
  Mat_at (cameraIntrinsics p) 1 2 = Some cy /\
  pointHeadClient p <> None.

(** ** Observers of a run *)

(** The state a computation ends in, when it ends in one. *)
Definition final_state {A : Type} (r : Result A) : option Proc :=
  match r with
  | Ok _ p | Throw _ p | Blocked p => Some p
  | Undefined | OutOfFuel => None
  end.

(** [r] ends in a state, and that state satisfies [Q]. *)
Definition ends_with {A : Type} (r : Result A) (Q : Proc -> Prop) : Prop :=
  match r with
  | Ok _ p | Throw _ p | Blocked p => Q p
  | Undefined | OutOfFuel => False
  end.

(** The calibration messages handed to [getCameraIntrinsics], oldest first. *)
Definition deliveries (evs : list Event) : list CameraInfo :=
  flat_map (fun e => match e with EvCameraInfo msg => [msg] | _ => [] end) evs.

(** The calls of [waitForServer], each with the time it was given. *)
Definition wait_attempts (evs : list Event) : list Z :=
  flat_map (fun e => match e with EvWaitForServer d => [d] | _ => [] end) evs.

(** [p'] has the calibration of [p]: same matrix, same flag, and no
    calibration message was delivered in between. *)
Definition calibration_kept (p p' : Proc) : Prop :=
  cameraIntrinsics p' = cameraIntrinsics p /\
  intrinsicsReceived p' = intrinsicsReceived p /\
  deliveries (trace p') = deliveries (trace p).

(** Same calibration, same client, same subscription. *)
Definition globals_kept (p p' : Proc) : Prop :=
  calibration_kept p p' /\
  pointHeadClient p' = pointHeadClient p /\
  cameraInfoSub p' = cameraInfoSub p.

(** Whether [ros::Time::waitForValid], called at instant 0 with a bound of
    five seconds, sees a valid time source. *)
Definition clock_in_time (env : Env) : bool :=
  match valid_at env with
  | Some tv => tv <=? seconds 5
  | None => false
  end.

(** ** Intermediate states of the loops and of [main] *)

Definition starting_text : string := "Starting look_to_point application ...".
Definition timed_out_text : string := "Timed-out waiting for valid time.".
Definition waiting_intrinsics_text : string := "Waiting for camera intrinsics ... ".
Definition waiting_text : string :=
  "Waiting for the point_head_action server to come up".

(** What the server loop does once a wait has timed out in state [p]. *)
Definition after_failed_wait (env : Env) (k : nat) (iterations : Z) (p : Proc)
    : Result Z :=
  if reached (stop_at env) (now p) then Ok iterations p
  else if iterations <? max_iterations
       then while_ k (server_wait_cond env) server_wait_body (iterations + 1)
              (add_event (EvDebug waiting_text) p)
       else Ok iterations p.

(** The state after one poll cycle, [spinOnce] then a sleep of 0.2 s. *)
Definition after_poll (env : Env) (p : Proc) : Proc :=
  let p1 := add_event EvSpinOnce p in
  let p2 :=
    match camera_info env (now p) with
    | Some msg =>
        if cameraInfoSub p
        then set_intrinsicsReceived true
               (set_cameraIntrinsics (intrinsics_of msg)
                  (add_event (EvCameraInfo msg) p1))
        else p1
    | None => p1
    end in
  set_now (now p + millis 200) (add_event (EvSleep (millis 200)) p2).

(** The process at instant [t], about to enter the loop that waits for the
    camera intrinsics. *)
Definition Proc_waiting (t : Z) : Proc :=
  {| cameraIntrinsics := Mat_empty;
     intrinsicsReceived := false;
     pointHeadClient := None;
     cameraInfoSub := true;
     now := t;
     trace := [EvInfo starting_text; EvWaitForValid (seconds 5);
               EvSubscribe cameraInfoTopic; EvInfo waiting_intrinsics_text] |}.

(** ** Concrete calibrations, states and environments *)

(** fx = fy = 500, cx = 320, cy = 240. *)
Definition K_example : CameraInfo :=
  {| K := [Double.of_int 500; Double.zero; Double.of_int 320;
           Double.zero; Double.of_int 500; Double.of_int 240;
           Double.zero; Double.zero; Double.of_int 1];
     K_size := eq_refl |}.

(** fx = fy = 7, cx = cy = 1. *)
Definition K_other : CameraInfo :=
  {| K := [Double.of_int 7; Double.zero; Double.of_int 1;
           Double.zero; Double.of_int 7; Double.of_int 1;
           Double.zero; Double.zero; Double.of_int 1];
     K_size := eq_refl |}.

(** A calibrated and connected process, seven seconds after its start. *)
Definition Proc_example : Proc :=
  {| cameraIntrinsics := intrinsics_of K_example;
     intrinsicsReceived := true;
     pointHeadClient := Some pointHeadAction;
     cameraInfoSub := false;
     now := seconds 7;
     trace := [] |}.

(** The action server never comes up and nobody asks for shutdown. *)
Definition Env_never_ready : Env :=
  {| stop_at := None; valid_at := Some 0; server_at := None;
     camera_info := fun _ => Some K_example; incoming := [] |}.

(** No calibration message is ever published; shutdown after 0.5 s. *)
Definition Env_no_calibration : Env :=
  {| stop_at := Some (millis 500); valid_at := Some 0; server_at := None;
     camera_info := fun _ => None; incoming := [] |}.

(** The time source becomes valid nine seconds after the start. *)
Definition Env_no_clock : Env :=
  {| stop_at := None; valid_at := Some (seconds 9); server_at := Some 0;
     camera_info := fun _ => Some K_example; incoming := [] |}.

(** The clock is valid after one second and a calibration message is found
    at the third poll; shutdown is requested two seconds later, one second
    into the second wait for a server that never comes up; an image that
    cannot be decoded is pending. *)
Definition Env_prompt : Env :=
  {| stop_at := Some (seconds 3); valid_at := Some (seconds 1);
     server_at := None;
     camera_info := fun t => if t =? seconds 1 + millis 400
                             then Some K_example else None;
     incoming := [{| arrival := seconds 2;
                     payload := Image {| decodable := false; mouse := [] |} |}] |}.

(** [K_example] is found at the third poll and [K_other] is published at
    every later instant, also while [ros::spin()] runs; the server is up
    after one second, an image with a click on it arrives, and shutdown
    comes after thirty seconds. *)
Definition Env_two_calibrations : Env :=
  {| stop_at := Some (seconds 30); valid_at := Some 0;
     server_at := Some (seconds 1);
     camera_info := fun t => if t <? millis 400 then None
                             else if t =? millis 400 then Some K_example
                                  else Some K_other;
     incoming :=
       [{| arrival := seconds 2; payload := Calibration K_other |};
        {| arrival := seconds 2;
           payload := Image {| decodable := true;
                               mouse := [{| me_event := EVENT_LBUTTONDOWN;
                                            me_u := 420; me_v := 240;
                                            me_flags := 0 |}] |} |};
        {| arrival := seconds 3; payload := Calibration K_other |}] |}.

(** ** Vocabulary of the properties of whole runs *)

Definition cv_exception : string := "cv_bridge::Exception".

(** A double that is neither an infinity nor a NaN. *)
Definition is_finite (x : double) : bool :=
  match x with
  | S754_zero _ | S754_finite _ _ _ => true
  | S754_infinity _ | S754_nan => false
  end.

Definition is_button_down (e : MouseEvent) : bool :=
  me_event e =? EVENT_LBUTTONDOWN.

(** The goal [onMouse] builds at instant [t] for the pixel of [e]. *)
Definition goal_of_click (t : Z) (fx fy cx cy : double) (e : MouseEvent)
    : PointHeadGoal :=
  {| target :=
       {| header := {| frame_id := cameraFrame; stamp := t |};
          point := project_spec (me_u e) (me_v e) fx fy cx cy |};
     pointing_axis :=
       {| vx := Double.zero; vy := Double.zero; vz := Double.one |};
     pointing_frame := cameraFrame;
     min_duration := millis 500;
     max_velocity := Double.one |}.

(** The goals handed to [sendGoal], oldest first. *)
Definition sent_goals (evs : list Event) : list PointHeadGoal :=
  flat_map (fun e => match e with EvSendGoal g => [g] | _ => [] end) evs.

(** A goal that asks to point the optical axis of the camera frame at a
    point of depth 1 in that frame, in at least 0.5 s and at most at
    velocity 1.0. *)
Definition look_goal (g : PointHeadGoal) : Prop :=
  pointing_frame g = cameraFrame /\
  pointing_axis g
  = {| vx := Double.zero; vy := Double.zero; vz := Double.one |} /\
  min_duration g = millis 500 /\
  max_velocity g = Double.one /\
  frame_id (header (target g)) = cameraFrame /\
  point_z (point (target g)) = Double.one.

(** Every goal sent so far is a [look_goal]. *)
Definition goals_inv (p : Proc) : Prop :=
  forall g, In (EvSendGoal g) (trace p) -> look_goal g.

(** The intrinsic matrix is the one some calibration message describes. *)
Definition calibrated (p : Proc) : Prop :=
  exists msg, cameraIntrinsics p = intrinsics_of msg.

(** The server comes up seven seconds after the start, during the fourth
    wait; nobody asks for shutdown. *)
Definition Env_late_server : Env :=
  {| stop_at := None; valid_at := Some 0; server_at := Some (seconds 7);
     camera_info := fun _ => Some K_example; incoming := [] |}.

(** The server comes up after three seconds, during the second wait. *)
Definition Env_second_wait : Env :=
  {| stop_at := None; valid_at := Some 0; server_at := Some (seconds 3);
     camera_info := fun _ => Some K_example; incoming := [] |}.

(** An image shown while the pointer moves, the button goes down at
    (420, 240), up again, and down at (320, 240). *)
Definition Frame_clicks : Frame :=
  {| decodable := true;
     mouse := [{| me_event := EVENT_MOUSEMOVE; me_u := 400; me_v := 240;
                  me_flags := 0 |};
               {| me_event := EVENT_LBUTTONDOWN; me_u := 420; me_v := 240;
                  me_flags := 0 |};
               {| me_event := EVENT_LBUTTONUP; me_u := 420; me_v := 240;
                  me_flags := 0 |};
               {| me_event := EVENT_LBUTTONDOWN; me_u := 320; me_v := 240;
                  me_flags := 0 |}] |}.

(** An image that cannot be converted. *)
Definition Frame_broken : Frame := {| decodable := false; mouse := [] |}.

(** A calibration with a zero focal length fx. *)
Definition K_zero_focal : CameraInfo :=
  {| K := [Double.zero; Double.zero; Double.of_int 320;
           Double.zero; Double.of_int 500; Double.of_int 240;
           Double.zero; Double.zero; Double.of_int 1];
     K_size := eq_refl |}.

Definition Proc_zero_focal : Proc :=
  {| cameraIntrinsics := intrinsics_of K_zero_focal;
     intrinsicsReceived := true;
     pointHeadClient := Some pointHeadAction;
     cameraInfoSub := false;
     now := seconds 7;
     trace := [] |}.

(** What a computation may end in: [QOk] on return, [QThrow] on an
    exception, [QBlocked] when it never returns; it does not reach
    undefined behaviour.  Nothing is said of a run the loop budget cuts. *)
Definition outcome {A : Type} (r : Result A) (QOk : A -> Proc -> Prop)
    (QThrow : string -> Proc -> Prop) (QBlocked : Proc -> Prop) : Prop :=
  match r with
  | Ok a p => QOk a p
  | Throw w p => QThrow w p
  | Blocked p => QBlocked p
  | Undefined => False
  | OutOfFuel => True
  end.

(** Every image among [msgs] can be converted. *)
Definition all_decodable (msgs : list Incoming) : Prop :=
  Forall (fun i => match payload i with
                   | Image f => decodable f = true
                   | Calibration _ => True
                   end) msgs.

(** A process that is connected but not calibrated, and one that is
    calibrated but has no client. *)
Definition Proc_uncalibrated : Proc :=
  {| cameraIntrinsics := Mat_empty;
     intrinsicsReceived := false;
     pointHeadClient := Some pointHeadAction;
     cameraInfoSub := true;
     now := seconds 1;
     trace := [] |}.

Definition Proc_unconnected : Proc :=
  {| cameraIntrinsics := intrinsics_of K_example;
     intrinsicsReceived := true;
     pointHeadClient := None;
     cameraInfoSub := false;
     now := seconds 1;
     trace := [] |}.

(** The process in which [main] calls [createPointHeadClient], once the
    intrinsics wait has ended in [p2], and the one in which it calls
    [ros::spin()], once [createPointHeadClient] has returned in [p3]. *)
Definition Proc_connecting (p2 : Proc) : Proc :=
  set_cameraInfoSub false
    (add_event (EvShutdownSubscriber cameraInfoTopic) p2).

Definition Proc_spinning (p3 : Proc) : Proc :=
  add_event (EvSubscribe imageTopic)
    (add_event (EvInfo ("Subscribing to " ++ imageTopic ++ " ...")%string)
       (add_event (EvSetMouseCallback windowName)
          (add_event (EvNamedWindow windowName) p3))).

(** * Properties *)

Arguments Double.sub : simpl never.
Arguments Double.mul : simpl never.
Arguments Double.div : simpl never.
Arguments Double.of_int : simpl never.
Arguments show_int : simpl never.
Arguments pixel_selected : simpl never.

(** ** The callbacks *)

Lemma getCameraIntrinsics_eq (msg : CameraInfo) (p : Proc) :
  getCameraIntrinsics msg p
  = Ok tt (set_intrinsicsReceived true
             (set_cameraIntrinsics (intrinsics_of msg) p)).
Proof. reflexivity. Qed.

Lemma onMouse_other (event u v flags : Z) (p : Proc) :
  event <> EVENT_LBUTTONDOWN -> onMouse event u v flags p = Ok tt p.
Proof.
  intros Hne. unfold onMouse.
  destruct (Z.eqb_spec event EVENT_LBUTTONDOWN) as [E | _]; [contradiction | reflexivity].
Qed.

Lemma onMouse_down (u v flags : Z) (p : Proc) (fx fy cx cy : double) :
  populated p fx fy cx cy ->
  onMouse EVENT_LBUTTONDOWN u v flags p
  = Ok tt
      (add_event
         (EvSendGoal
            {| target :=
                 {| header := {| frame_id := cameraFrame; stamp := now p |};
                    point := project_spec u v fx fy cx cy |};
               pointing_axis :=
                 {| vx := Double.zero; vy := Double.zero; vz := Double.one |};
               pointing_frame := cameraFrame;
               min_duration := millis 500;
               max_velocity := Double.one |})
         (add_event (EvInfo (pixel_selected u v)) p)).
Proof.
  intros (Hfx & Hfy & Hcx & Hcy & Hc).
  unfold onMouse, intrinsics_at, sendGoal, ros_Time_now, log, modify, gets, bind.
  cbn. rewrite Hcx. cbn. rewrite Hfx. cbn. rewrite Hcy. cbn. rewrite Hfy. cbn.
  destruct (pointHeadClient p) as [c |]; [reflexivity | contradiction].
Qed.

(** ** Facts about binary64 the projection needs *)

Module DoubleFacts.
Import Double.

Lemma digits2_pos_size (m : positive) : digits2_pos m = Pos.size m.
Proof. induction m as [m IH | m IH |]; simpl; now rewrite ?IH. Qed.

Lemma digits2_pos_shift (m k : positive) :
  digits2_pos (Pos.iter xO m k) = (digits2_pos m + k)%positive.
Proof.
  induction k as [| k IH] using Pos.peano_ind.
  - simpl. now rewrite Pos.add_1_r.
  - rewrite Pos.iter_succ. simpl. rewrite IH. lia.
Qed.

Lemma digits2_pos_bound (m : positive) (k : Z) :
  0 <= k -> Zpos m < 2 ^ k -> Zpos (digits2_pos m) <= k.
Proof.
  intros Hk Hm. rewrite digits2_pos_size.
  destruct (Z_le_gt_dec (Zpos (Pos.size m)) k) as [L | G]; [exact L | exfalso].
  pose proof (Pos.size_le m) as Hs.
  assert (E : 2 ^ (k + 1) <= 2 ^ Zpos (Pos.size m))
    by (apply Z.pow_le_mono_r; lia).
  rewrite Z.pow_add_r in E by lia.
  assert (Zpos (2 ^ Pos.size m) <= Zpos m~0) by exact Hs.
  rewrite Pos2Z.inj_pow in H. change (Zpos m~0) with (2 * Zpos m) in H.
  lia.
Qed.

(** A mantissa of exactly 53 bits with an exponent in range is kept. *)
Lemma binary_round_aux_exact (s : bool) (m : positive) (e : Z) :
  Zpos (digits2_pos m) = 53 -> -1074 <= e <= 971 ->
  binary_round_aux prec emax s (Zpos m) e loc_Exact = S754_finite s m e.
Proof.
  intros Hd He.
  assert (E : IntDef.Z.max (53 + e - 53) (3 - 1024 - 53) - e = 0)
    by (change IntDef.Z.max with Z.max; lia).
  unfold binary_round_aux, shr_fexp, fexp, emin, prec, emax.
  cbv [Zdigits2 shr_record_of_loc].
  rewrite Hd, E.
  cbv [shr shr_m loc_of_shr_record round_nearest_even].
  rewrite Hd, E.
  destruct (Z.leb_spec e (1024 - 53)); [reflexivity | lia].
Qed.

(** Integers of at most 53 bits convert to finite doubles. *)
Lemma binary_round_int (s : bool) (m : positive) :
  Zpos (digits2_pos m) <= 53 ->
  exists m' e', binary_round prec emax s m 0 = S754_finite s m' e'.
Proof.
  intros Hd. unfold binary_round, shl_align, fexp, emin, prec, emax.
  assert (H1 : 1 <= Zpos (digits2_pos m)) by lia.
  assert (E : IntDef.Z.max (Zpos (digits2_pos m) + 0 - 53) (3 - 1024 - 53)
              = Zpos (digits2_pos m) - 53)
    by (change IntDef.Z.max with Z.max; lia).
  rewrite E.
  destruct (Zpos (digits2_pos m) - 53 - 0) as [| d | d] eqn:Ed; try lia.
  - exists m, 0. apply binary_round_aux_exact; lia.
  - exists (Pos.iter xO m d), (Zpos (digits2_pos m) - 53).
    apply binary_round_aux_exact; [| lia].
    rewrite digits2_pos_shift. lia.
Qed.

Lemma of_int_finite (n : Z) :
  int_range n ->
  of_int n = zero \/ exists s m e, of_int n = S754_finite s m e.
Proof.
  unfold int_range, of_int, binary_normalize. intros Hn.
  destruct n as [| m | m].
  - now left.
  - right. exists false.
    apply binary_round_int.
    assert (Zpos (digits2_pos m) <= 31) by (apply digits2_pos_bound; lia). lia.
  - right. exists true.
    apply binary_round_int.
    assert (Zpos (digits2_pos m) <= 32) by (apply digits2_pos_bound; lia). lia.
Qed.

(** [x - y = +0] when [x] converts an [int] and [y] compares equal to it. *)
Lemma sub_equal (n : Z) (y : double) :
  int_range n -> eqb (of_int n) y = true -> sub (of_int n) y = zero.
Proof.
  intros Hn He.
  destruct (of_int_finite n Hn) as [E | (s & m & e & E)]; rewrite E in *.
  - destruct y as [[|] | [|] | | [|] my ey]; try discriminate He; reflexivity.
  - destruct y as [sy | sy | | sy my ey];
      try (destruct s, sy; discriminate He); try discriminate He.
    unfold eqb, SFeqb, SFcompare in He.
    assert (s = sy /\ e = ey /\ m = my) as (-> & -> & ->).
    { change (Pos.compare_cont Eq m my) with (Pos.compare m my) in He.
      destruct s, sy; try discriminate He;
        destruct (Z.compare_spec e ey) as [He' | He' | He'];
        try discriminate He;
        destruct (Pos.compare_spec m my) as [Hm | Hm | Hm];
        try discriminate He; auto. }
    unfold sub, SFsub. rewrite Z.sub_diag. reflexivity.
Qed.

(** [0 < y] leaves two shapes for [y]. *)
Lemma positive_cases (y : double) :
  ltb zero y = true ->
  y = S754_infinity false \/ exists m e, y = S754_finite false m e.
Proof.
  destruct y as [s | s | | s m e]; try discriminate.
  - destruct s; [discriminate | now left].
  - destruct s; [discriminate |]. right. now exists m, e.
Qed.

Lemma div_zero_positive (y : double) :
  ltb zero y = true -> div zero y = zero.
Proof.
  intros H. destruct (positive_cases y H) as [-> | (m & e & ->)]; reflexivity.
Qed.

Lemma mul_zero_one : mul zero one = zero.
Proof. reflexivity. Qed.

Lemma one_of_int : of_int 1 = one.
Proof. reflexivity. Qed.

End DoubleFacts.

(** ** What the callbacks compute *)

Lemma Proc_example_populated :
  populated Proc_example (Double.of_int 500) (Double.of_int 500)
    (Double.of_int 320) (Double.of_int 240).
Proof. repeat split; discriminate. Qed.

(** [K_at] never falls back on its default for an index below 9. *)
Lemma K_at_in_range (msg : CameraInfo) (i : nat) :
  (i < 9)%nat -> nth_error (K msg) i = Some (K_at msg i).
Proof.
  intros Hi. unfold K_at. apply nth_error_nth'. rewrite (K_size msg). exact Hi.
Qed.

(** C4.  The calibration callback stores the 3x3 matrix whose entries
    (0,0), (1,1), (0,2), (1,2) are K[0], K[4], K[2], K[5], whose (2,2)
    entry is 1 and whose four other entries are 0, and it raises the
    received flag; nothing else of the process changes. *)
Theorem getCameraIntrinsics_stores_K (msg : CameraInfo) (p : Proc) :
  exists p',
    getCameraIntrinsics msg p = Ok tt p' /\
    rows (cameraIntrinsics p') = 3%nat /\
    cols (cameraIntrinsics p') = 3%nat /\
    Mat_at (cameraIntrinsics p') 0 0 = Some (K_at msg 0) /\
    Mat_at (cameraIntrinsics p') 1 1 = Some (K_at msg 4) /\
    Mat_at (cameraIntrinsics p') 0 2 = Some (K_at msg 2) /\
    Mat_at (cameraIntrinsics p') 1 2 = Some (K_at msg 5) /\
    Mat_at (cameraIntrinsics p') 2 2 = Some Double.one /\
    Mat_at (cameraIntrinsics p') 0 1 = Some Double.zero /\
    Mat_at (cameraIntrinsics p') 1 0 = Some Double.zero /\
    Mat_at (cameraIntrinsics p') 2 0 = Some Double.zero /\
    Mat_at (cameraIntrinsics p') 2 1 = Some Double.zero /\
    intrinsicsReceived p' = true /\
    pointHeadClient p' = pointHeadClient p /\
    now p' = now p /\
    trace p' = trace p.
Proof.
  eexists. split; [apply getCameraIntrinsics_eq |].
  repeat split.
Qed.

(** C1.  On a primary-button-down event at any pixel (u, v), with the
    intrinsic matrix holding fx, fy, cx, cy, the handler sends a goal whose
    target point is the projection x = (u - cx)/fx, y = (v - cy)/fy at
    depth Z = 1.0, that is (x*Z, y*Z, Z), in the camera optical frame.
    Nothing constrains u and v. *)
Theorem onMouse_projects_pixel (u v flags : Z) (p : Proc) (fx fy cx cy : double) :
  populated p fx fy cx cy ->
  exists goal,
    onMouse EVENT_LBUTTONDOWN u v flags p
    = Ok tt (add_event (EvSendGoal goal)
               (add_event (EvInfo (pixel_selected u v)) p)) /\
    (let x := Double.div (Double.sub (Double.of_int u) cx) fx in
     let y := Double.div (Double.sub (Double.of_int v) cy) fy in
     let Z := Double.one in
     point (target goal)
     = {| point_x := Double.mul x Z; point_y := Double.mul y Z; point_z := Z |}) /\
    frame_id (header (target goal)) = cameraFrame.
Proof.
  intros Hp. eexists. split; [apply (onMouse_down u v flags p fx fy cx cy Hp) |].
  split; reflexivity.
Qed.

Lemma onMouse_projects_pixel_witness :
  populated Proc_example (Double.of_int 500) (Double.of_int 500)
    (Double.of_int 320) (Double.of_int 240) /\
  exists goal,
    onMouse EVENT_LBUTTONDOWN 420 240 0 Proc_example
    = Ok tt (add_event (EvSendGoal goal)
               (add_event (EvInfo (pixel_selected 420 240)) Proc_example)) /\
    point (target goal)
    = {| point_x := S754_finite false 7205759403792794 (-55);
         point_y := Double.zero;
         point_z := Double.one |} /\
    frame_id (header (target goal)) = cameraFrame.
Proof.
  split; [repeat split; discriminate |].
  destruct (onMouse_projects_pixel 420 240 0 Proc_example
              (Double.of_int 500) (Double.of_int 500)
              (Double.of_int 320) (Double.of_int 240))
    as (goal & Hrun & Hpt & Hfr); [repeat split; discriminate |].
  exists goal. split; [exact Hrun |]. split; [| exact Hfr].
  rewrite Hpt. reflexivity.
Defined.

(** C3.  A mouse event other than primary-button-down leaves the process
    as it is: no goal is built, nothing is sent, nothing is logged.  On a
    calibrated and connected process a goal is sent if and only if the
    event is primary-button-down. *)
Theorem onMouse_dispatch_iff (event u v flags : Z) (p : Proc)
    (fx fy cx cy : double) :
  (event <> EVENT_LBUTTONDOWN -> onMouse event u v flags p = Ok tt p) /\
  (populated p fx fy cx cy ->
   exists p' evs,
     onMouse event u v flags p = Ok tt p' /\
     trace p' = trace p ++ evs /\
     ((exists goal, In (EvSendGoal goal) evs) <-> event = EVENT_LBUTTONDOWN)).
Proof.
  split; [apply onMouse_other |].
  intros Hp. destruct (Z.eq_dec event EVENT_LBUTTONDOWN) as [-> | Hne].
  - eexists. eexists. split; [apply (onMouse_down u v flags p fx fy cx cy Hp) |].
    split.
    + cbn. rewrite <- app_assoc. reflexivity.
    + split; [reflexivity |]. intros _. eexists. right. left. reflexivity.
  - exists p, []. split; [apply onMouse_other, Hne |].
    split; [symmetry; apply app_nil_r |].
    split; [intros (g & []) | contradiction].
Qed.

Lemma onMouse_dispatch_iff_witness :
  onMouse EVENT_LBUTTONUP 420 240 0 Proc_example = Ok tt Proc_example /\
  onMouse EVENT_MOUSEMOVE 420 240 0 Proc_example = Ok tt Proc_example /\
  exists p' evs,
    onMouse EVENT_LBUTTONDOWN 420 240 0 Proc_example = Ok tt p' /\
    trace p' = trace Proc_example ++ evs /\
    ((exists goal, In (EvSendGoal goal) evs)
     <-> EVENT_LBUTTONDOWN = EVENT_LBUTTONDOWN).
Proof.
  split; [| split].
  - apply (proj1 (onMouse_dispatch_iff EVENT_LBUTTONUP 420 240 0 Proc_example
                    Double.zero Double.zero Double.zero Double.zero)).
    discriminate.
  - apply (proj1 (onMouse_dispatch_iff EVENT_MOUSEMOVE 420 240 0 Proc_example
                    Double.zero Double.zero Double.zero Double.zero)).
    discriminate.
  - apply (proj2 (onMouse_dispatch_iff EVENT_LBUTTONDOWN 420 240 0 Proc_example
                    (Double.of_int 500) (Double.of_int 500)
                    (Double.of_int 320) (Double.of_int 240))).
    repeat split; discriminate.
Defined.

(** C6.  The goal sent on a qualifying click points the camera optical
    frame's axis (0, 0, 1) at the projected ray point, stamped with that
    frame and the current time, with min_duration 0.5 s and max_velocity
    1.0. *)
Theorem onMouse_goal_fields (u v flags : Z) (p : Proc) (fx fy cx cy : double) :
  populated p fx fy cx cy ->
  exists goal,
    onMouse EVENT_LBUTTONDOWN u v flags p
    = Ok tt (add_event (EvSendGoal goal)
               (add_event (EvInfo (pixel_selected u v)) p)) /\
    pointing_frame goal = cameraFrame /\
    pointing_axis goal
    = {| vx := Double.zero; vy := Double.zero; vz := Double.one |} /\
    min_duration goal = millis 500 /\
    max_velocity goal = Double.one /\
    target goal
    = {| header := {| frame_id := cameraFrame; stamp := now p |};
         point := project_spec u v fx fy cx cy |}.
Proof.
  intros Hp. eexists. split; [apply (onMouse_down u v flags p fx fy cx cy Hp) |].
  repeat split.
Qed.

Lemma onMouse_goal_fields_witness :
  exists goal,
    onMouse EVENT_LBUTTONDOWN 420 240 0 Proc_example
    = Ok tt (add_event (EvSendGoal goal)
               (add_event (EvInfo (pixel_selected 420 240)) Proc_example)) /\
    pointing_frame goal = cameraFrame /\
    pointing_axis goal
    = {| vx := Double.zero; vy := Double.zero; vz := Double.one |} /\
    min_duration goal = millis 500 /\
    max_velocity goal = Double.one /\
    target goal
    = {| header := {| frame_id := cameraFrame; stamp := seconds 7 |};
         point := project_spec 420 240 (Double.of_int 500) (Double.of_int 500)
                    (Double.of_int 320) (Double.of_int 240) |}.
Proof.
  apply (onMouse_goal_fields 420 240 0 Proc_example).
  repeat split; discriminate.
Defined.

(** C9.  With positive fx and fy, a click on the principal point
    (u = cx, v = cy) sends the ray point (0, 0, 1) exactly. *)
Theorem onMouse_principal_point (u v flags : Z) (p : Proc)
    (fx fy cx cy : double) :
  populated p fx fy cx cy ->
  Double.int_range u -> Double.int_range v ->
  Double.ltb Double.zero fx = true -> Double.ltb Double.zero fy = true ->
  Double.eqb (Double.of_int u) cx = true ->
  Double.eqb (Double.of_int v) cy = true ->
  exists goal,
    onMouse EVENT_LBUTTONDOWN u v flags p
    = Ok tt (add_event (EvSendGoal goal)
               (add_event (EvInfo (pixel_selected u v)) p)) /\
    point (target goal)
    = {| point_x := Double.zero; point_y := Double.zero;
         point_z := Double.one |}.
Proof.
  intros Hp Hu Hv Hfx Hfy Hcx Hcy.
  eexists. split; [apply (onMouse_down u v flags p fx fy cx cy Hp) |].
  cbn. unfold project_spec.
  rewrite (DoubleFacts.sub_equal u cx Hu Hcx), (DoubleFacts.sub_equal v cy Hv Hcy).
  rewrite (DoubleFacts.div_zero_positive fx Hfx), (DoubleFacts.div_zero_positive fy Hfy).
  rewrite DoubleFacts.mul_zero_one. reflexivity.
Qed.

Lemma onMouse_principal_point_witness :
  exists goal,
    onMouse EVENT_LBUTTONDOWN 320 240 0 Proc_example
    = Ok tt (add_event (EvSendGoal goal)
               (add_event (EvInfo (pixel_selected 320 240)) Proc_example)) /\
    point (target goal)
    = {| point_x := Double.zero; point_y := Double.zero;
         point_z := Double.one |}.
Proof.
  apply (onMouse_principal_point 320 240 0 Proc_example
           (Double.of_int 500) (Double.of_int 500)
           (Double.of_int 320) (Double.of_int 240)).
  - repeat split; discriminate.
  - unfold Double.int_range; lia.
  - unfold Double.int_range; lia.
  - reflexivity.
  - reflexivity.
  - reflexivity.
  - reflexivity.
Defined.

(** ** What a run leaves behind *)

Lemma calibration_kept_refl (p : Proc) : calibration_kept p p.
Proof. repeat split. Qed.

Lemma calibration_kept_trans (p q r : Proc) :
  calibration_kept p q -> calibration_kept q r -> calibration_kept p r.
Proof.
  intros (A1 & A2 & A3) (B1 & B2 & B3). repeat split; congruence.
Qed.

Lemma deliveries_app (l1 l2 : list Event) :
  deliveries (l1 ++ l2) = deliveries l1 ++ deliveries l2.
Proof. apply flat_map_app. Qed.

Lemma calibration_kept_event (e : Event) (p : Proc) :
  deliveries [e] = [] -> calibration_kept p (add_event e p).
Proof.
  intros He. repeat split. cbn [trace add_event].
  rewrite deliveries_app, He. apply app_nil_r.
Qed.

Lemma calibration_kept_now (t : Z) (p : Proc) : calibration_kept p (set_now t p).
Proof. repeat split. Qed.

Lemma calibration_kept_client (c : option string) (p : Proc) :
  calibration_kept p (set_pointHeadClient c p).
Proof. repeat split. Qed.

Lemma globals_kept_refl (p : Proc) : globals_kept p p.
Proof. split; [apply calibration_kept_refl | split; reflexivity]. Qed.

Lemma globals_kept_trans (p q r : Proc) :
  globals_kept p q -> globals_kept q r -> globals_kept p r.
Proof.
  intros (A & A' & A'') (B & B' & B'').
  split; [eapply calibration_kept_trans; eauto | split; congruence].
Qed.

Lemma globals_kept_event (e : Event) (p : Proc) :
  deliveries [e] = [] -> globals_kept p (add_event e p).
Proof.
  intros H. split; [now apply calibration_kept_event | split; reflexivity].
Qed.

Lemma globals_kept_now (t : Z) (p : Proc) : globals_kept p (set_now t p).
Proof. split; [apply calibration_kept_now | split; reflexivity]. Qed.

(** ** The wait for the action server *)

Lemma server_wait_step (env : Env) (k : nat) (iterations : Z) (p : Proc) :
  while_ (S k) (server_wait_cond env) server_wait_body iterations p
  = let p1 := add_event (EvWaitForServer (seconds 2)) p in
    let timed_out := set_now (now p + seconds 2) p1 in
    match server_at env with
    | Some srv =>
        if srv <=? now p + seconds 2
        then Ok iterations (set_now (Z.max (now p) srv) p1)
        else after_failed_wait env k iterations timed_out
    | None => after_failed_wait env k iterations timed_out
    end.
Proof.
  unfold after_failed_wait.
  cbn [while_]. unfold server_wait_cond, waitForServer, wait_until, ros_ok,
    server_wait_body, log, modify, gets, ret, bind.
  cbn [now add_event set_now].
  destruct (server_at env) as [srv |].
  - destruct (srv <=? now p + seconds 2); [reflexivity |].
    cbn [negb now set_now].
    destruct (reached (stop_at env) (now p + seconds 2)); [reflexivity |].
    cbn [negb]. destruct (iterations <? max_iterations); reflexivity.
  - cbn [negb now set_now].
    destruct (reached (stop_at env) (now p + seconds 2)); [reflexivity |].
    cbn [negb]. destruct (iterations <? max_iterations); reflexivity.
Qed.

(** The loop ends, whatever the environment, within four waits. *)
Lemma server_wait_total (env : Env) (fuel : nat) :
  forall (iterations : Z) (p : Proc),
    0 <= iterations <= 3 ->
    (Z.to_nat (4 - iterations) <= fuel)%nat ->
    exists iterations' p',
      while_ fuel (server_wait_cond env) server_wait_body iterations p
      = Ok iterations' p' /\
      iterations <= iterations' <= 3 /\
      globals_kept p p' /\
      now p <= now p'.
Proof.
  induction fuel as [| k IH]; intros it p Hit Hfuel; [lia |].
  rewrite server_wait_step. cbv zeta.
  assert (Hfail :
    forall q, globals_kept p q -> now p <= now q ->
      exists it' p', after_failed_wait env k it q = Ok it' p' /\
        it <= it' <= 3 /\ globals_kept p p' /\ now p <= now p').
  { intros q Hk Hn. unfold after_failed_wait.
    destruct (reached (stop_at env) (now q)).
    - exists it, q. split; [reflexivity |]. split; [lia |]. auto.
    - unfold max_iterations. destruct (Z.ltb_spec it 3) as [Hlt | Hge].
      + destruct (IH (it + 1) (add_event (EvDebug waiting_text) q))
          as (it' & p' & Hrun & Hb & Hk' & Hn'); [lia | lia |].
        exists it', p'. split; [exact Hrun |].
        split; [lia |]. split.
        * eapply globals_kept_trans; [exact Hk |].
          eapply globals_kept_trans; [| exact Hk'].
          now apply globals_kept_event.
        * cbn [now add_event] in Hn'. lia.
      + exists it, q. split; [reflexivity |]. split; [lia |]. auto. }
  assert (Hev : globals_kept p (add_event (EvWaitForServer (seconds 2)) p))
    by now apply globals_kept_event.
  destruct (server_at env) as [srv |].
  - destruct (srv <=? now p + seconds 2).
    + eexists. eexists. split; [reflexivity |].
      split; [lia |]. split; [| cbn [now set_now]; lia].
      eapply globals_kept_trans; [exact Hev | apply globals_kept_now].
    + apply Hfail.
      * eapply globals_kept_trans; [exact Hev | apply globals_kept_now].
      * cbn [now set_now]. unfold seconds. lia.
  - apply Hfail.
    + eapply globals_kept_trans; [exact Hev | apply globals_kept_now].
    + cbn [now set_now]. unfold seconds. lia.
Qed.

(** Reading a field of an updated process state. *)
Ltac proc_simpl :=
  cbn [cameraIntrinsics intrinsicsReceived pointHeadClient cameraInfoSub
       now trace set_cameraIntrinsics set_intrinsicsReceived
       set_pointHeadClient set_cameraInfoSub set_now add_event] in *.

(** Stepping through a sequence of statements. *)
Lemma bind_Ok {A B : Type} (m : M A) (k : A -> M B) (p p' : Proc) (a : A) :
  m p = Ok a p' -> bind m k p = k a p'.
Proof. intros H. unfold bind. now rewrite H. Qed.

Lemma bind_log {B : Type} (e : Event) (k : unit -> M B) (p : Proc) :
  bind (log e) k p = k tt (add_event e p).
Proof. reflexivity. Qed.

Lemma bind_modify {B : Type} (f : Proc -> Proc) (k : unit -> M B) (p : Proc) :
  bind (modify f) k p = k tt (f p).
Proof. reflexivity. Qed.

Lemma createPointHeadClient_eq (fuel : nat) (env : Env) (p : Proc) :
  createPointHeadClient fuel env p
  = match while_ fuel (server_wait_cond env) server_wait_body 0
            (set_pointHeadClient (Some pointHeadAction)
               (add_event (EvNewClient pointHeadAction) p)) with
    | Ok iterations p' =>
        if iterations =? max_iterations then Throw server_unavailable p'
        else Ok tt p'
    | Throw w p' => Throw w p'
    | Undefined => Undefined
    | Blocked p' => Blocked p'
    | OutOfFuel => OutOfFuel
    end.
Proof.
  unfold createPointHeadClient. rewrite bind_log, bind_modify. unfold bind.
  destruct (while_ fuel _ _ 0 _) as [it p' | | | |]; try reflexivity.
  destruct (it =? max_iterations); reflexivity.
Qed.

(** With a loop budget of four the routine returns or throws; it never
    touches the calibration, and it installs the client. *)
Lemma createPointHeadClient_total (fuel : nat) (env : Env) (p : Proc) :
  (4 <= fuel)%nat ->
  exists p',
    (createPointHeadClient fuel env p = Ok tt p' \/
     createPointHeadClient fuel env p = Throw server_unavailable p') /\
    calibration_kept p p' /\
    cameraInfoSub p' = cameraInfoSub p /\
    pointHeadClient p' = Some pointHeadAction /\
    now p <= now p'.
Proof.
  intros Hfuel. rewrite createPointHeadClient_eq.
  destruct (server_wait_total env fuel 0
              (set_pointHeadClient (Some pointHeadAction)
                 (add_event (EvNewClient pointHeadAction) p)))
    as (it & p' & Hrun & _ & (Hk & Hc & Hsub) & Hn); [lia | simpl; lia |].
  rewrite Hrun. exists p'. split.
  - destruct (it =? max_iterations); auto.
  - split; [| split; [exact Hsub | split; [exact Hc | exact Hn]]].
    eapply calibration_kept_trans; [| exact Hk].
    eapply calibration_kept_trans; [| apply calibration_kept_client].
    now apply calibration_kept_event.
Qed.

(** C2.  Against a server that never comes up, and with no shutdown
    request, [createPointHeadClient] calls [waitForServer] four times, two
    seconds each, eight seconds in all, and then throws: the wait is the
    first operand of the loop condition, so it runs once more after the
    third increment of [iterations]. *)
Theorem createPointHeadClient_never_ready (fuel : nat) (env : Env) (p : Proc) :
  server_at env = None -> stop_at env = None ->
  exists p' evs,
    createPointHeadClient (4 + fuel) env p = Throw server_unavailable p' /\
    trace p' = trace p ++ evs /\
    wait_attempts evs = [seconds 2; seconds 2; seconds 2; seconds 2] /\
    now p' = now p + seconds 8.
Proof.
  intros Hsrv Hstop. rewrite createPointHeadClient_eq.
  change (4 + fuel)%nat with (S (S (S (S fuel)))).
  unfold after_failed_wait.
  do 4 (rewrite server_wait_step; cbv zeta; rewrite Hsrv;
        unfold after_failed_wait; rewrite Hstop; cbn [reached]).
  cbn. eexists. eexists. split; [reflexivity |]. cbn.
  split; [| split].
  - repeat rewrite <- app_assoc. cbn. reflexivity.
  - reflexivity.
  - unfold seconds. lia.
Qed.

Lemma createPointHeadClient_never_ready_witness :
  exists p' evs,
    createPointHeadClient 4 Env_never_ready Proc_init
    = Throw server_unavailable p' /\
    trace p' = evs /\
    wait_attempts evs = [seconds 2; seconds 2; seconds 2; seconds 2] /\
    now p' = seconds 8.
Proof.
  exact (createPointHeadClient_never_ready 0 Env_never_ready Proc_init
           eq_refl eq_refl).
Defined.

(** X1.  The same fourth wait is wasted when it succeeds: a server that comes
    up during it is reported as unavailable. *)
Lemma createPointHeadClient_late_server (fuel : nat) (env : Env) (p : Proc)
    (srv : Z) :
  server_at env = Some srv -> stop_at env = None ->
  now p + seconds 6 < srv <= now p + seconds 8 ->
  exists p',
    createPointHeadClient (4 + fuel) env p = Throw server_unavailable p' /\
    now p' = srv.
Proof.
  intros Hsrv Hstop Hrange. rewrite createPointHeadClient_eq.
  change (4 + fuel)%nat with (S (S (S (S fuel)))).
  unfold seconds in Hrange.
  do 3 (rewrite server_wait_step; cbv zeta; rewrite Hsrv;
        cbn [now add_event set_now set_pointHeadClient];
        match goal with
        | |- context [?a <=? ?b] =>
            destruct (Z.leb_spec a b); [unfold seconds in *; lia |]
        end;
        unfold after_failed_wait; rewrite Hstop; cbn [reached];
        cbn [Z.ltb Z.compare max_iterations Z.add Pos.add Pos.compare
             Pos.compare_cont Pos.succ]).
  rewrite server_wait_step; cbv zeta; rewrite Hsrv.
  cbn [now add_event set_now set_pointHeadClient].
  match goal with
  | |- context [?a <=? ?b] =>
      destruct (Z.leb_spec a b); [| unfold seconds in *; lia]
  end.
  cbn. eexists. split; [reflexivity |]. cbn. unfold seconds in *. lia.
Qed.

(** ** The wait for the camera intrinsics *)

Lemma intrinsics_wait_step (env : Env) (k : nat) (p : Proc) :
  while_ (S k) (intrinsics_wait_cond env) (intrinsics_wait_body env) tt p
  = if reached (stop_at env) (now p) then Ok tt p
    else if intrinsicsReceived p then Ok tt p
         else while_ k (intrinsics_wait_cond env) (intrinsics_wait_body env) tt
                (after_poll env p).
Proof.
  cbn [while_]. unfold intrinsics_wait_cond, intrinsics_wait_body, ros_ok,
    spinOnce, deliver_camera_info, sleep, after_poll, log, modify, gets, ret,
    bind.
  destruct (reached (stop_at env) (now p)); [reflexivity |].
  cbn [negb]. destruct (intrinsicsReceived p); [reflexivity |].
  cbn [negb now add_event cameraInfoSub].
  destruct (camera_info env (now p)) as [msg |]; [| reflexivity].
  cbn [cameraInfoSub add_event].
  destruct (cameraInfoSub p); reflexivity.
Qed.

Lemma now_after_poll (env : Env) (p : Proc) :
  now (after_poll env p) = now p + millis 200.
Proof. reflexivity. Qed.

Lemma reached_mono (o : option Z) (t t' : Z) :
  t <= t' -> reached o t' = false -> reached o t = false.
Proof.
  destruct o as [s |]; [| reflexivity]. cbn. intros Ht H.
  destruct (Z.leb_spec s t'); [discriminate |].
  destruct (Z.leb_spec s t); [lia | reflexivity].
Qed.

Lemma wait_intrinsics_cancelled_aux (env : Env) (s : Z) :
  stop_at env = Some s ->
  forall (n fuel : nat) (p : Proc),
    s <= now p + Z.of_nat n * millis 200 -> (n < fuel)%nat ->
    exists p',
      wait_intrinsics fuel env p = Ok tt p' /\
      (p' = p \/ now p < now p' < s + millis 200).
Proof.
  intros Hs. unfold wait_intrinsics.
  induction n as [| n IH]; intros fuel p Hn Hfuel;
    (destruct fuel as [| k]; [lia |]); rewrite intrinsics_wait_step, Hs;
    cbn [reached]; destruct (Z.leb_spec s (now p)) as [Hr | Hr];
    try (exists p; split; [reflexivity | now left]).
  - lia.
  - destruct (intrinsicsReceived p); [exists p; split; [reflexivity | now left] |].
    destruct (IH k (after_poll env p)) as (p' & Hrun & Hp');
      [rewrite now_after_poll; lia | lia |].
    exists p'. split; [exact Hrun |]. right.
    destruct Hp' as [-> | Hp']; rewrite now_after_poll in *;
      unfold millis in *; lia.
Qed.

(** C8.  Once shutdown is requested the loop that waits for the camera
    intrinsics ends at its next check of [ros::ok()], less than one poll
    interval (0.2 s) later, whether or not a calibration message ever
    arrives: the loop budget [fuel] only has to cover the polls up to the
    request. *)
Theorem wait_intrinsics_cancelled (env : Env) (s : Z) (n fuel : nat) (p : Proc) :
  stop_at env = Some s ->
  s <= now p + Z.of_nat n * millis 200 -> (n < fuel)%nat ->
  exists p',
    wait_intrinsics fuel env p = Ok tt p' /\
    now p <= now p' < Z.max s (now p) + millis 200.
Proof.
  intros Hs Hn Hfuel.
  destruct (wait_intrinsics_cancelled_aux env s Hs n fuel p Hn Hfuel)
    as (p' & Hrun & Hp').
  exists p'. split; [exact Hrun |].
  destruct Hp' as [-> | Hp']; unfold millis in *; lia.
Qed.

Lemma wait_intrinsics_cancelled_witness :
  exists p',
    wait_intrinsics 4 Env_no_calibration Proc_init = Ok tt p' /\
    now Proc_init <= now p' < Z.max (millis 500) (now Proc_init) + millis 200.
Proof.
  apply (wait_intrinsics_cancelled Env_no_calibration (millis 500) 3 4 Proc_init).
  - reflexivity.
  - vm_compute. discriminate.
  - lia.
Defined.

(** Without a calibration message the loop ends exactly at the first poll
    instant at or after the shutdown request. *)
Example wait_intrinsics_cancelled_at :
  exists p',
    wait_intrinsics 4 Env_no_calibration Proc_init = Ok tt p' /\
    now p' = millis 600 /\ intrinsicsReceived p' = false /\
    cameraIntrinsics p' = Mat_empty.
Proof. eexists. split; [vm_compute; reflexivity |]. repeat split. Qed.

(** The first calibration message found at a poll instant is stored, it is
    the only one delivered, and the loop is left one sleep later. *)
Lemma wait_intrinsics_first_message (env : Env) (msg : CameraInfo) :
  forall (k fuel : nat) (p : Proc),
    cameraInfoSub p = true ->
    intrinsicsReceived p = false ->
    (forall j, (j < k)%nat ->
               camera_info env (now p + Z.of_nat j * millis 200) = None) ->
    camera_info env (now p + Z.of_nat k * millis 200) = Some msg ->
    reached (stop_at env) (now p + Z.of_nat k * millis 200) = false ->
    (k + 1 < fuel)%nat ->
    exists p',
      wait_intrinsics fuel env p = Ok tt p' /\
      cameraIntrinsics p' = intrinsics_of msg /\
      intrinsicsReceived p' = true /\
      deliveries (trace p') = deliveries (trace p) ++ [msg] /\
      pointHeadClient p' = pointHeadClient p /\
      now p' = now p + Z.of_nat (k + 1) * millis 200.
Proof.
  unfold wait_intrinsics.
  induction k as [| k IH]; intros fuel p Hsub Hrecv Hnone Hmsg Hok Hfuel.
  - destruct fuel as [| [| fuel]]; try lia.
    replace (now p + Z.of_nat 0 * millis 200) with (now p) in * by lia.
    rewrite intrinsics_wait_step, Hok, Hrecv.
    rewrite intrinsics_wait_step.
    assert (E : intrinsicsReceived (after_poll env p) = true)
      by (unfold after_poll; rewrite Hmsg, Hsub; reflexivity).
    rewrite E.
    exists (after_poll env p).
    split;
      [destruct (reached (stop_at env) (now (after_poll env p))); reflexivity |].
    unfold after_poll. rewrite Hmsg, Hsub. proc_simpl.
    repeat split.
    rewrite !deliveries_app. cbn. rewrite !app_nil_r. reflexivity.
  - destruct fuel as [| fuel]; [lia |].
    assert (H0 : camera_info env (now p) = None).
    { specialize (Hnone 0%nat ltac:(lia)).
      replace (now p + Z.of_nat 0 * millis 200) with (now p) in Hnone by lia.
      exact Hnone. }
    rewrite intrinsics_wait_step, Hrecv.
    assert (Hle : now p <= now p + Z.of_nat (S k) * millis 200)
      by (unfold millis; lia).
    rewrite (reached_mono (stop_at env) _ _ Hle Hok).
    destruct (IH fuel (after_poll env p)) as (p' & Hrun & Hm & Hr & Hd & Hc & Ht).
    + unfold after_poll. rewrite H0. exact Hsub.
    + unfold after_poll. rewrite H0. exact Hrecv.
    + intros j Hj. rewrite now_after_poll.
      specialize (Hnone (S j) ltac:(lia)).
      replace (now p + millis 200 + Z.of_nat j * millis 200)
        with (now p + Z.of_nat (S j) * millis 200) by lia.
      exact Hnone.
    + rewrite now_after_poll.
      replace (now p + millis 200 + Z.of_nat k * millis 200)
        with (now p + Z.of_nat (S k) * millis 200) by lia.
      exact Hmsg.
    + rewrite now_after_poll.
      replace (now p + millis 200 + Z.of_nat k * millis 200)
        with (now p + Z.of_nat (S k) * millis 200) by lia.
      exact Hok.
    + lia.
    + exists p'. split; [exact Hrun |].
      split; [exact Hm |]. split; [exact Hr |].
      unfold after_poll in Hd, Hc, Ht. rewrite H0 in Hd, Hc, Ht.
      proc_simpl.
      split; [| split; [exact Hc | unfold millis in *; lia]].
      rewrite Hd. rewrite !deliveries_app. cbn. rewrite !app_nil_r. reflexivity.
Qed.

(** ** The running phase never writes the calibration *)

Lemma ends_with_final {A : Type} (r : Result A) (Q : Proc -> Prop) :
  ends_with r Q -> exists p, final_state r = Some p /\ Q p.
Proof. destruct r as [a p | w p | | p |]; cbn; intros H; eauto; contradiction. Qed.

Lemma ends_with_bind {A B : Type} (m : M A) (k : A -> M B) (p : Proc)
    (R Q : Proc -> Prop) :
  ends_with (m p) R ->
  (forall p', R p' -> Q p') ->
  (forall a p', R p' -> ends_with (k a p') Q) ->
  ends_with (bind m k p) Q.
Proof.
  unfold bind. destruct (m p) as [a p' | w p' | | p' |]; cbn; auto.
Qed.

Lemma populated_kept (p p' : Proc) (fx fy cx cy : double) :
  populated p fx fy cx cy -> globals_kept p p' -> populated p' fx fy cx cy.
Proof.
  intros (H1 & H2 & H3 & H4 & H5) ((Hm & _ & _) & Hc & _).
  unfold populated. rewrite Hm, Hc. auto.
Qed.

Lemma intrinsics_of_populated (p : Proc) (msg : CameraInfo) :
  cameraIntrinsics p = intrinsics_of msg -> pointHeadClient p <> None ->
  populated p (K_at msg 0) (K_at msg 4) (K_at msg 2) (K_at msg 5).
Proof. intros Hm Hc. unfold populated. rewrite Hm. repeat split. exact Hc. Qed.

Lemma onMouse_kept (event u v flags : Z) (p : Proc) (fx fy cx cy : double) :
  populated p fx fy cx cy ->
  exists p', onMouse event u v flags p = Ok tt p' /\ globals_kept p p'.
Proof.
  intros Hp. destruct (Z.eq_dec event EVENT_LBUTTONDOWN) as [-> | Hne].
  - eexists. split; [apply (onMouse_down u v flags p fx fy cx cy Hp) |].
    eapply globals_kept_trans; apply globals_kept_event; reflexivity.
  - exists p. split; [now apply onMouse_other | apply globals_kept_refl].
Qed.

Lemma deliver_mouse_kept (evs : list MouseEvent) (fx fy cx cy : double) :
  forall p, populated p fx fy cx cy ->
    exists p', deliver_mouse evs p = Ok tt p' /\ globals_kept p p'.
Proof.
  induction evs as [| e rest IH]; intros p Hp.
  - exists p. split; [reflexivity | apply globals_kept_refl].
  - cbn [deliver_mouse].
    destruct (onMouse_kept (me_event e) (me_u e) (me_v e) (me_flags e) p
                fx fy cx cy Hp) as (p1 & Hrun1 & Hk1).
    rewrite (bind_Ok _ _ _ _ _ Hrun1).
    destruct (IH p1 (populated_kept _ _ _ _ _ _ Hp Hk1)) as (p2 & Hrun2 & Hk2).
    exists p2. split; [exact Hrun2 | eapply globals_kept_trans; eauto].
Qed.

Lemma imageCallback_kept (f : Frame) (p : Proc) (fx fy cx cy : double) :
  populated p fx fy cx cy ->
  ends_with (imageCallback f p) (globals_kept p).
Proof.
  intros Hp. unfold imageCallback. destruct (decodable f).
  - rewrite !bind_log.
    assert (Hk0 : globals_kept p
                    (add_event (EvWaitKey 15) (add_event (EvImshow windowName) p)))
      by (eapply globals_kept_trans; apply globals_kept_event; reflexivity).
    destruct (deliver_mouse_kept (mouse f) fx fy cx cy _
                (populated_kept _ _ _ _ _ _ Hp Hk0)) as (p1 & Hrun & Hk1).
    rewrite (bind_Ok _ _ _ _ _ Hrun). cbn.
    eapply globals_kept_trans; [exact Hk0 |].
    eapply globals_kept_trans; [exact Hk1 | apply globals_kept_now].
  - cbn. apply globals_kept_refl.
Qed.

(** A calibration message that arrives after the subscriber was shut down
    is dropped. *)
Lemma deliver_camera_info_inactive (msg : CameraInfo) (p : Proc) :
  cameraInfoSub p = false -> deliver_camera_info msg p = Ok tt p.
Proof.
  intros H. unfold deliver_camera_info, gets, bind. now rewrite H.
Qed.

Lemma dispatch_kept (i : Incoming) (p : Proc) (fx fy cx cy : double) :
  populated p fx fy cx cy -> cameraInfoSub p = false ->
  ends_with (dispatch i p) (globals_kept p).
Proof.
  intros Hp Hsub. unfold dispatch. destruct (payload i) as [f | msg].
  - now apply imageCallback_kept with (fx := fx) (fy := fy) (cx := cx) (cy := cy).
  - rewrite (deliver_camera_info_inactive msg p Hsub). cbn.
    apply globals_kept_refl.
Qed.

Lemma spin_kept (env : Env) (msgs : list Incoming) (fx fy cx cy : double) :
  forall p, populated p fx fy cx cy -> cameraInfoSub p = false ->
    ends_with (spin env msgs p) (globals_kept p).
Proof.
  induction msgs as [| i rest IH]; intros p Hp Hsub; cbn [spin].
  - destruct (stop_at env); cbn; [apply globals_kept_now | apply globals_kept_refl].
  - cbv zeta. destruct (reached (stop_at env) (Z.max (now p) (arrival i))).
    + cbn. apply globals_kept_now.
    + set (q := set_now (Z.max (now p) (arrival i)) p).
      assert (Hq : globals_kept p q) by apply globals_kept_now.
      pose proof (populated_kept _ _ _ _ _ _ Hp Hq) as Hpq.
      apply ends_with_bind with (R := globals_kept p).
      * pose proof (dispatch_kept i q fx fy cx cy Hpq Hsub) as H.
        destruct (dispatch i q); cbn [ends_with] in *;
          try contradiction; exact (globals_kept_trans _ _ _ Hq H).
      * auto.
      * intros _ p' Hk.
        assert (Hsub' : cameraInfoSub p' = false)
          by (destruct Hk as (_ & _ & E); congruence).
        pose proof (IH p' (populated_kept _ _ _ _ _ _ Hp Hk) Hsub') as H.
        destruct (spin env rest p'); cbn [ends_with] in *;
          try contradiction; exact (globals_kept_trans _ _ _ Hk H).
Qed.

(** Once shutdown is requested [ros::spin()] returns without serving
    anything. *)
Lemma spin_after_stop (env : Env) (s : Z) (fs : list Incoming) (p : Proc) :
  stop_at env = Some s -> s <= now p -> spin env fs p = Ok tt p.
Proof.
  intros Hs Hle.
  assert (E : set_now (Z.max (now p) s) p = p).
  { rewrite Z.max_l by exact Hle. now destruct p. }
  destruct fs as [| f rest]; cbn [spin]; rewrite Hs.
  - now rewrite E.
  - cbv zeta. cbn [reached].
    destruct (Z.leb_spec s (Z.max (now p) (arrival f))); [now rewrite E | lia].
Qed.

(** ** Shutdown during the wait for the action server *)

Lemma server_wait_cancelled (env : Env) (s : Z) :
  stop_at env = Some s ->
  forall (fuel : nat) (iterations : Z) (p : Proc),
    0 <= iterations < 3 ->
    s <= now p + seconds 2 * (3 - iterations) ->
    (Z.to_nat (3 - iterations) <= fuel)%nat ->
    exists iterations' p',
      while_ fuel (server_wait_cond env) server_wait_body iterations p
      = Ok iterations' p' /\
      iterations' < 3 /\
      ((forall srv, server_at env = Some srv -> s <= srv) -> s <= now p').
Proof.
  intros Hs. induction fuel as [| k IH]; intros it p Hit Hnow Hfuel; [lia |].
  rewrite server_wait_step. cbv zeta.
  assert (Hfail :
    exists it' p',
      after_failed_wait env k it
        (set_now (now p + seconds 2) (add_event (EvWaitForServer (seconds 2)) p))
      = Ok it' p' /\ it' < 3 /\
      ((forall srv, server_at env = Some srv -> s <= srv) -> s <= now p')).
  { unfold after_failed_wait. rewrite Hs. proc_simpl. cbn [reached].
    destruct (Z.leb_spec s (now p + seconds 2)) as [Hr | Hr].
    - eexists. eexists. split; [reflexivity |]. split; [lia |]. intros _. exact Hr.
    - unfold max_iterations. unfold seconds in *.
      destruct (Z.ltb_spec it 3) as [_ | Hge]; [| lia].
      apply IH; proc_simpl; lia. }
  destruct (server_at env) as [srv |] eqn:Hsrv; [| exact Hfail].
  destruct (Z.leb_spec srv (now p + seconds 2)); [| exact Hfail].
  eexists. eexists. split; [reflexivity |]. split; [lia |].
  intros Hnb. proc_simpl. specialize (Hnb srv eq_refl). lia.
Qed.

Lemma createPointHeadClient_cancelled (fuel : nat) (env : Env) (s : Z) (p : Proc) :
  stop_at env = Some s -> (3 <= fuel)%nat -> s <= now p + seconds 6 ->
  exists p',
    createPointHeadClient fuel env p = Ok tt p' /\
    ((forall srv, server_at env = Some srv -> s <= srv) -> s <= now p').
Proof.
  intros Hs Hfuel Hle. rewrite createPointHeadClient_eq.
  destruct (server_wait_cancelled env s Hs fuel 0
              (set_pointHeadClient (Some pointHeadAction)
                 (add_event (EvNewClient pointHeadAction) p)))
    as (it & p' & Hrun & Hit & Hnow);
    [lia | proc_simpl; unfold seconds in *; lia | simpl; lia |].
  rewrite Hrun. exists p'. split; [| exact Hnow].
  unfold max_iterations. destruct (Z.eqb_spec it 3); [lia | reflexivity].
Qed.

(** ** The start of [main] *)

Lemma run_clock_failure (fuel : nat) (env : Env) :
  clock_in_time env = false ->
  run fuel env
  = Ok EXIT_FAILURE
      {| cameraIntrinsics := Mat_empty;
         intrinsicsReceived := false;
         pointHeadClient := None;
         cameraInfoSub := false;
         now := seconds 5;
         trace := [EvInfo starting_text; EvWaitForValid (seconds 5);
                   EvFatal timed_out_text] |}.
Proof.
  unfold clock_in_time, run, main, waitForValid, wait_until. intros H.
  rewrite bind_log. unfold bind at 1. rewrite bind_log. proc_simpl.
  cbn [now Proc_init add_event Z.add].
  destruct (valid_at env) as [tv |]; [rewrite H |]; reflexivity.
Qed.

Lemma run_clock_valid (fuel : nat) (env : Env) (tv : Z) :
  valid_at env = Some tv -> tv <= seconds 5 ->
  run fuel env
  = (wait_intrinsics fuel env ;; main_after_intrinsics fuel env)
      (Proc_waiting (Z.max 0 tv)).
Proof.
  unfold run, main, waitForValid, wait_until. intros Hv Hle.
  rewrite bind_log. unfold bind at 1. rewrite bind_log. proc_simpl.
  cbn [now Proc_init add_event Z.add]. rewrite Hv.
  destruct (Z.leb_spec tv (seconds 5)); [reflexivity | lia].
Qed.

(** C7.  A time source that is not valid within five seconds makes the
    process log one fatal message and return the failure exit code, having
    subscribed to nothing; one that is valid in time takes the process to
    the loop that waits for the camera intrinsics, subscribed to the
    camera_info topic. *)
Theorem main_clock_precondition (fuel : nat) (env : Env) :
  (clock_in_time env = false ->
   exists p,
     run fuel env = Ok EXIT_FAILURE p /\
     EXIT_FAILURE <> EXIT_SUCCESS /\
     trace p = [EvInfo starting_text; EvWaitForValid (seconds 5);
                EvFatal timed_out_text] /\
     (forall topic, ~ In (EvSubscribe topic) (trace p))) /\
  (clock_in_time env = true ->
   exists tv,
     valid_at env = Some tv /\
     run fuel env
     = (wait_intrinsics fuel env ;; main_after_intrinsics fuel env)
         (Proc_waiting (Z.max 0 tv)) /\
     In (EvSubscribe cameraInfoTopic) (trace (Proc_waiting (Z.max 0 tv)))).
Proof.
  split; intros H.
  - eexists. split; [apply run_clock_failure, H |].
    split; [discriminate |]. split; [reflexivity |].
    intros topic [E | [E | [E | []]]]; discriminate E.
  - unfold clock_in_time in H. destruct (valid_at env) as [tv |] eqn:Hv;
      [| discriminate].
    exists tv. split; [reflexivity |]. split.
    + apply run_clock_valid; [exact Hv | now apply Z.leb_le].
    + cbn. auto.
Qed.

Lemma main_clock_precondition_witness :
  (exists p,
     run 4 Env_no_clock = Ok EXIT_FAILURE p /\
     EXIT_FAILURE <> EXIT_SUCCESS /\
     trace p = [EvInfo starting_text; EvWaitForValid (seconds 5);
                EvFatal timed_out_text] /\
     (forall topic, ~ In (EvSubscribe topic) (trace p))) /\
  (exists tv,
     valid_at Env_prompt = Some tv /\
     run 4 Env_prompt
     = (wait_intrinsics 4 Env_prompt ;; main_after_intrinsics 4 Env_prompt)
         (Proc_waiting (Z.max 0 tv)) /\
     In (EvSubscribe cameraInfoTopic) (trace (Proc_waiting (Z.max 0 tv)))).
Proof.
  split.
  - apply (proj1 (main_clock_precondition 4 Env_no_clock)). reflexivity.
  - apply (proj2 (main_clock_precondition 4 Env_prompt)). reflexivity.
Defined.

(** ** From the end of the intrinsics wait to the end of [main] *)

Lemma server_wait_cancelled_trace (env : Env) (s : Z) :
  stop_at env = Some s ->
  forall (fuel : nat) (iterations : Z) (p : Proc),
    0 <= iterations < 3 ->
    s <= now p + seconds 2 * (3 - iterations) ->
    (Z.to_nat (3 - iterations) <= fuel)%nat ->
    exists iterations' p' evs,
      while_ fuel (server_wait_cond env) server_wait_body iterations p
      = Ok iterations' p' /\
      iterations <= iterations' < 3 /\
      trace p' = trace p ++ evs /\
      wait_attempts evs
      = repeat (seconds 2) (Z.to_nat (iterations' - iterations + 1)) /\
      pointHeadClient p' = pointHeadClient p /\
      ((forall srv, server_at env = Some srv -> s <= srv) -> s <= now p').
Proof.
  intros Hs. induction fuel as [| k IH]; intros it p Hit Hnow Hfuel; [lia |].
  rewrite server_wait_step. cbv zeta.
  set (p1 := add_event (EvWaitForServer (seconds 2)) p).
  assert (Hone : forall t,
    ((forall srv, server_at env = Some srv -> s <= srv) -> s <= t) ->
    exists it' p' evs, Ok (A := Z) it (set_now t p1) = Ok it' p' /\
      it <= it' < 3 /\ trace p' = trace p ++ evs /\
      wait_attempts evs = repeat (seconds 2) (Z.to_nat (it' - it + 1)) /\
      pointHeadClient p' = pointHeadClient p /\
      ((forall srv, server_at env = Some srv -> s <= srv) -> s <= now p')).
  { intros t Ht. exists it, (set_now t p1), [EvWaitForServer (seconds 2)].
    split; [reflexivity |]. split; [lia |]. split; [reflexivity |].
    replace (it - it + 1) with 1 by lia. split; [reflexivity |].
    split; [reflexivity | exact Ht]. }
  assert (Hfail :
    exists it' p' evs,
      after_failed_wait env k it (set_now (now p + seconds 2) p1)
      = Ok it' p' /\
      it <= it' < 3 /\ trace p' = trace p ++ evs /\
      wait_attempts evs = repeat (seconds 2) (Z.to_nat (it' - it + 1)) /\
      pointHeadClient p' = pointHeadClient p /\
      ((forall srv, server_at env = Some srv -> s <= srv) -> s <= now p')).
  { unfold after_failed_wait. rewrite Hs. proc_simpl. cbn [reached].
    destruct (Z.leb_spec s (now p + seconds 2)) as [Hr | Hr];
      [apply Hone; intros _; exact Hr |].
    unfold max_iterations. unfold seconds in Hnow, Hr.
    destruct (Z.ltb_spec it 3) as [_ | Hge]; [| lia].
    destruct (IH (it + 1)
                (add_event (EvDebug waiting_text)
                   (set_now (now p + seconds 2) p1)))
      as (it' & p' & evs & Hrun & Hb & Htr & Hw & Hc & Hn);
      [lia | proc_simpl; unfold seconds; lia | lia |].
    exists it', p',
      (EvWaitForServer (seconds 2) :: EvDebug waiting_text :: evs).
    split; [exact Hrun |]. split; [lia |]. split.
    - rewrite Htr. subst p1. proc_simpl. rewrite <- !app_assoc. reflexivity.
    - split.
      + cbn [wait_attempts flat_map app]. fold (wait_attempts evs). rewrite Hw.
        replace (Z.to_nat (it' - it + 1))
          with (S (Z.to_nat (it' - (it + 1) + 1))) by lia.
        reflexivity.
      + split; [exact Hc | exact Hn]. }
  destruct (server_at env) as [srv |] eqn:Hsrv; [| exact Hfail].
  destruct (Z.leb_spec srv (now p + seconds 2)); [| exact Hfail].
  apply Hone. intros Hnb. specialize (Hnb srv eq_refl). lia.
Qed.

(** C10.  When shutdown is requested no later than the end of the third
    failed wait, [createPointHeadClient] returns normally instead of
    throwing.  If moreover the server had not come up before the request,
    the run of [main] is this one: [createPointHeadClient] is called after
    the camera_info subscriber is shut down, makes one to three waits of
    two seconds and returns with the client installed, at or after the
    request; [main] then creates the window, sets the mouse callback,
    announces and makes the image subscription; [ros::spin()] returns at
    once, having served nothing; the window is destroyed and the exit code
    is the success code. *)
Theorem cancelled_connection_exits_success (fuel : nat) (env : Env) (s : Z) :
  stop_at env = Some s -> (3 <= fuel)%nat ->
  (forall p, s <= now p + seconds 6 ->
             exists p', createPointHeadClient fuel env p = Ok tt p') /\
  (forall tv p2,
     valid_at env = Some tv -> tv <= seconds 5 ->
     (forall srv, server_at env = Some srv -> s <= srv) ->
     wait_intrinsics fuel env (Proc_waiting (Z.max 0 tv)) = Ok tt p2 ->
     s <= now p2 + seconds 6 ->
     exists p3 evs n,
       createPointHeadClient fuel env (Proc_connecting p2) = Ok tt p3 /\
       trace p3
       = trace p2 ++ EvShutdownSubscriber cameraInfoTopic
                     :: EvNewClient pointHeadAction :: evs /\
       wait_attempts evs = repeat (seconds 2) n /\
       (1 <= n <= 3)%nat /\
       pointHeadClient p3 = Some pointHeadAction /\
       s <= now p3 /\
       spin env (incoming env) (Proc_spinning p3) = Ok tt (Proc_spinning p3) /\
       run fuel env
       = Ok EXIT_SUCCESS
           (add_event (EvDestroyWindow windowName) (Proc_spinning p3)) /\
       trace (add_event (EvDestroyWindow windowName) (Proc_spinning p3))
       = trace p3
         ++ [EvNamedWindow windowName; EvSetMouseCallback windowName;
             EvInfo ("Subscribing to " ++ imageTopic ++ " ...")%string;
             EvSubscribe imageTopic; EvDestroyWindow windowName]).
Proof.
  intros Hs Hfuel. split.
  - intros p Hle.
    destruct (createPointHeadClient_cancelled fuel env s p Hs Hfuel Hle)
      as (p' & Hrun & _).
    now exists p'.
  - intros tv p2 Hv Htv Hsrv Hwait Hle.
    destruct (server_wait_cancelled_trace env s Hs fuel 0
                (set_pointHeadClient (Some pointHeadAction)
                   (add_event (EvNewClient pointHeadAction)
                      (Proc_connecting p2))))
      as (it & p3 & evs & Hloop & Hit & Htr & Hw & Hc & Hnow);
      [lia
      | unfold Proc_connecting; proc_simpl; unfold seconds in *; lia
      | simpl; lia |].
    specialize (Hnow Hsrv).
    assert (Hrun : createPointHeadClient fuel env (Proc_connecting p2) = Ok tt p3).
    { rewrite createPointHeadClient_eq, Hloop. unfold max_iterations.
      destruct (Z.eqb_spec it 3); [lia | reflexivity]. }
    assert (Hspin : spin env (incoming env) (Proc_spinning p3)
                    = Ok tt (Proc_spinning p3))
      by (apply (spin_after_stop env s); [exact Hs | exact Hnow]).
    exists p3, evs, (Z.to_nat (it - 0 + 1)).
    split; [exact Hrun |].
    split; [rewrite Htr; unfold Proc_connecting; proc_simpl;
            rewrite <- !app_assoc; reflexivity |].
    split; [exact Hw |]. split; [lia |].
    split; [rewrite Hc; reflexivity |]. split; [exact Hnow |].
    split; [exact Hspin |]. split.
    + rewrite (run_clock_valid fuel env tv Hv Htv).
      rewrite (bind_Ok _ _ _ _ _ Hwait).
      unfold main_after_intrinsics. rewrite bind_log, bind_modify.
      change (set_cameraInfoSub false
                (add_event (EvShutdownSubscriber cameraInfoTopic) p2))
        with (Proc_connecting p2).
      rewrite (bind_Ok _ _ _ _ _ Hrun). rewrite !bind_log. cbv beta.
      change (add_event (EvSubscribe imageTopic)
                (add_event
                   (EvInfo ("Subscribing to " ++ imageTopic ++ " ...")%string)
                   (add_event (EvSetMouseCallback windowName)
                      (add_event (EvNamedWindow windowName) p3))))
        with (Proc_spinning p3).
      rewrite (bind_Ok _ _ _ _ _ Hspin). rewrite bind_log. reflexivity.
    + unfold Proc_spinning. proc_simpl. rewrite <- !app_assoc. reflexivity.
Qed.

Lemma cancelled_connection_exits_success_witness :
  (exists p', createPointHeadClient 4 Env_prompt Proc_init = Ok tt p') /\
  (exists p2,
     wait_intrinsics 4 Env_prompt (Proc_waiting (Z.max 0 (seconds 1)))
     = Ok tt p2 /\
     exists p3 evs n,
       createPointHeadClient 4 Env_prompt (Proc_connecting p2) = Ok tt p3 /\
       trace p3
       = trace p2 ++ EvShutdownSubscriber cameraInfoTopic
                     :: EvNewClient pointHeadAction :: evs /\
       wait_attempts evs = repeat (seconds 2) n /\
       (1 <= n <= 3)%nat /\
       pointHeadClient p3 = Some pointHeadAction /\
       seconds 3 <= now p3 /\
       spin Env_prompt (incoming Env_prompt) (Proc_spinning p3)
       = Ok tt (Proc_spinning p3) /\
       run 4 Env_prompt
       = Ok EXIT_SUCCESS
           (add_event (EvDestroyWindow windowName) (Proc_spinning p3)) /\
       trace (add_event (EvDestroyWindow windowName) (Proc_spinning p3))
       = trace p3
         ++ [EvNamedWindow windowName; EvSetMouseCallback windowName;
             EvInfo ("Subscribing to " ++ imageTopic ++ " ...")%string;
             EvSubscribe imageTopic; EvDestroyWindow windowName]).
Proof.
  destruct (cancelled_connection_exits_success 4 Env_prompt (seconds 3)
              eq_refl ltac:(lia)) as [Hconnect Hmain].
  split.
  - apply Hconnect. vm_compute. discriminate.
  - eexists. split; [vm_compute; reflexivity |].
    apply (Hmain (seconds 1)).
    + reflexivity.
    + vm_compute. discriminate.
    + intros srv Hsrv. discriminate Hsrv.
    + vm_compute. reflexivity.
    + vm_compute. discriminate.
Defined.

(** After the intrinsics wait nothing writes the calibration: [main] ends
    in a state with the matrix, the flag and the deliveries it had. *)
Lemma main_after_intrinsics_kept (fuel : nat) (env : Env) (p : Proc)
    (msg : CameraInfo) :
  cameraIntrinsics p = intrinsics_of msg -> (4 <= fuel)%nat ->
  ends_with (main_after_intrinsics fuel env p) (calibration_kept p).
Proof.
  intros Hm Hfuel. unfold main_after_intrinsics. rewrite bind_log, bind_modify.
  set (p1 := set_cameraInfoSub false
               (add_event (EvShutdownSubscriber cameraInfoTopic) p)).
  assert (H1 : calibration_kept p p1) by now apply calibration_kept_event.
  destruct (createPointHeadClient_total fuel env p1 Hfuel)
    as (p2 & Hrun & H2 & Hsub & Hc & _).
  pose proof (calibration_kept_trans _ _ _ H1 H2) as H12.
  destruct Hrun as [Hrun | Hrun].
  - rewrite (bind_Ok _ _ _ _ _ Hrun). rewrite !bind_log. cbv beta.
    match goal with
    | |- ends_with (bind _ _ ?q) _ => set (p3 := q)
    end.
    assert (H3 : globals_kept p2 p3).
    { subst p3. repeat (eapply globals_kept_trans;
                        [| apply globals_kept_event; reflexivity]).
      apply globals_kept_refl. }
    assert (Hpop : populated p3 (K_at msg 0) (K_at msg 4) (K_at msg 2) (K_at msg 5)).
    { apply intrinsics_of_populated.
      - destruct H3 as ((E & _) & _). destruct H12 as (E' & _). congruence.
      - destruct H3 as (_ & E & _). rewrite E, Hc. discriminate. }
    assert (Hsub3 : cameraInfoSub p3 = false).
    { destruct H3 as (_ & _ & E). rewrite E, Hsub. reflexivity. }
    apply ends_with_bind with (R := globals_kept p3).
    + exact (spin_kept env (incoming env) _ _ _ _ p3 Hpop Hsub3).
    + intros p' (Hk & _).
      eapply calibration_kept_trans; [exact H12 |].
      eapply calibration_kept_trans; [exact (proj1 H3) | exact Hk].
    + intros _ p' (Hk & _). rewrite bind_log. cbn [ret ends_with].
      eapply calibration_kept_trans; [exact H12 |].
      eapply calibration_kept_trans; [exact (proj1 H3) |].
      eapply calibration_kept_trans; [exact Hk |].
      now apply calibration_kept_event.
  - unfold bind. rewrite Hrun. cbn [ends_with]. exact H12.
Qed.

(** C5.  The first calibration message found at a poll of the wait loop
    populates the intrinsic matrix, and it is the only message ever handed
    to the callback: whatever arrives later on the topic, whatever frames
    and clicks follow, and however the run ends, the process ends with the
    matrix of that message. *)
Theorem intrinsics_populated_once (fuel : nat) (env : Env) (tv : Z) (k : nat)
    (msg : CameraInfo) :
  valid_at env = Some tv -> tv <= seconds 5 ->
  (forall j, (j < k)%nat ->
             camera_info env (Z.max 0 tv + Z.of_nat j * millis 200) = None) ->
  camera_info env (Z.max 0 tv + Z.of_nat k * millis 200) = Some msg ->
  reached (stop_at env) (Z.max 0 tv + Z.of_nat k * millis 200) = false ->
  (k + 1 < fuel)%nat -> (4 <= fuel)%nat ->
  exists p,
    final_state (run fuel env) = Some p /\
    cameraIntrinsics p = intrinsics_of msg /\
    intrinsicsReceived p = true /\
    deliveries (trace p) = [msg].
Proof.
  intros Hv Htv Hnone Hmsg Hok Hk Hfuel.
  rewrite (run_clock_valid fuel env tv Hv Htv).
  destruct (wait_intrinsics_first_message env msg k fuel
              (Proc_waiting (Z.max 0 tv)) eq_refl eq_refl Hnone Hmsg Hok Hk)
    as (p2 & Hwait & Hm & Hr & Hd & _ & _).
  rewrite (bind_Ok _ _ _ _ _ Hwait).
  destruct (ends_with_final _ _ (main_after_intrinsics_kept fuel env p2 msg Hm Hfuel))
    as (p & Hfinal & Hm' & Hr' & Hd').
  exists p. split; [exact Hfinal |].
  split; [congruence |]. split; [congruence |].
  rewrite Hd', Hd. reflexivity.
Qed.

Lemma intrinsics_populated_once_witness :
  exists p,
    final_state (run 4 Env_two_calibrations) = Some p /\
    cameraIntrinsics p = intrinsics_of K_example /\
    intrinsicsReceived p = true /\
    deliveries (trace p) = [K_example].
Proof.
  apply (intrinsics_populated_once 4 Env_two_calibrations 0 2 K_example).
  - reflexivity.
  - vm_compute. discriminate.
  - intros j Hj.
    destruct j as [| [| j]]; [reflexivity | reflexivity | lia].
  - reflexivity.
  - reflexivity.
  - lia.
  - lia.
Defined.

(** ** Shutdown before any calibration message *)

Lemma wait_intrinsics_no_message (env : Env) (s : Z) :
  stop_at env = Some s ->
  forall (n fuel : nat) (p : Proc),
    intrinsicsReceived p = false ->
    (forall j : nat, camera_info env (now p + Z.of_nat j * millis 200) = None) ->
    s <= now p + Z.of_nat n * millis 200 -> (n < fuel)%nat ->
    exists p',
      wait_intrinsics fuel env p = Ok tt p' /\
      globals_kept p p' /\ s <= now p'.
Proof.
  intros Hs. unfold wait_intrinsics.
  induction n as [| n IH]; intros fuel p Hrecv Hnone Hn Hfuel;
    (destruct fuel as [| k]; [lia |]); rewrite intrinsics_wait_step, Hs, Hrecv;
    cbn [reached]; destruct (Z.leb_spec s (now p)) as [Hr | Hr];
    try (exists p; split; [reflexivity | split; [apply globals_kept_refl | lia]]).
  - lia.
  - assert (H0 : camera_info env (now p) = None).
    { specialize (Hnone 0%nat).
      replace (now p + Z.of_nat 0 * millis 200) with (now p) in Hnone by lia.
      exact Hnone. }
    assert (Hq : globals_kept p (after_poll env p)).
    { unfold after_poll. rewrite H0.
      eapply globals_kept_trans; [| apply globals_kept_now].
      eapply globals_kept_trans; apply globals_kept_event; reflexivity. }
    destruct (IH k (after_poll env p)) as (p' & Hrun & Hk & Hnow).
    + destruct Hq as ((_ & E & _) & _). congruence.
    + intros j. rewrite now_after_poll. specialize (Hnone (S j)).
      replace (now p + millis 200 + Z.of_nat j * millis 200)
        with (now p + Z.of_nat (S j) * millis 200) by lia.
      exact Hnone.
    + rewrite now_after_poll. lia.
    + lia.
    + exists p'. split; [exact Hrun |].
      split; [exact (globals_kept_trans _ _ _ Hq Hk) | exact Hnow].
Qed.

(** A run that is shut down before any calibration message is found never
    populates the matrix, and still exits with the success code. *)
Lemma run_cancelled_before_calibration (fuel n : nat) (env : Env) (tv s : Z) :
  valid_at env = Some tv -> tv <= seconds 5 -> stop_at env = Some s ->
  (forall j : nat,
     camera_info env (Z.max 0 tv + Z.of_nat j * millis 200) = None) ->
  s <= Z.max 0 tv + Z.of_nat n * millis 200 ->
  (n < fuel)%nat -> (4 <= fuel)%nat ->
  exists p,
    run fuel env = Ok EXIT_SUCCESS p /\
    cameraIntrinsics p = Mat_empty /\
    intrinsicsReceived p = false /\
    deliveries (trace p) = [].
Proof.
  intros Hv Htv Hs Hnone Hn Hfuel H4.
  rewrite (run_clock_valid fuel env tv Hv Htv).
  destruct (wait_intrinsics_no_message env s Hs n fuel
              (Proc_waiting (Z.max 0 tv)) eq_refl Hnone Hn Hfuel)
    as (p2 & Hwait & (Hk2 & _) & Hnow2).
  rewrite (bind_Ok _ _ _ _ _ Hwait).
  unfold main_after_intrinsics. rewrite bind_log, bind_modify.
  set (p1 := set_cameraInfoSub false
               (add_event (EvShutdownSubscriber cameraInfoTopic) p2)).
  assert (H1 : calibration_kept p2 p1) by now apply calibration_kept_event.
  destruct (createPointHeadClient_cancelled fuel env s p1 Hs ltac:(lia))
    as (p3 & Hrun & _); [subst p1; proc_simpl; unfold seconds; lia |].
  destruct (createPointHeadClient_total fuel env p1 H4)
    as (p3' & Hcases & H3 & _ & _ & Hnow3).
  assert (p3' = p3) as ->
    by (destruct Hcases as [E | E]; rewrite Hrun in E; congruence).
  rewrite (bind_Ok _ _ _ _ _ Hrun). rewrite !bind_log. cbv beta.
  assert (Hnow : s <= now p3) by (subst p1; proc_simpl; lia).
  match goal with
  | |- context [bind (spin _ _) _ ?q] =>
      rewrite (bind_Ok _ _ _ _ _ (spin_after_stop env s (incoming env) q Hs Hnow))
  end.
  rewrite bind_log. eexists. split; [reflexivity |].
  pose proof (calibration_kept_trans _ _ _ Hk2
                (calibration_kept_trans _ _ _ H1 H3)) as (Em & Er & Ed).
  proc_simpl. split; [exact Em |]. split; [exact Er |].
  rewrite !deliveries_app, Ed. reflexivity.
Qed.

(** * Further properties of the program *)

(** ** createPointHeadClient *)

Lemma createPointHeadClient_late_server_witness :
  exists p',
    createPointHeadClient 4 Env_late_server Proc_init
    = Throw server_unavailable p' /\
    now p' = seconds 7.
Proof.
  apply (createPointHeadClient_late_server 0 Env_late_server Proc_init (seconds 7)).
  - reflexivity.
  - reflexivity.
  - vm_compute. split; [reflexivity | discriminate].
Defined.

Lemma wait_attempts_app (l1 l2 : list Event) :
  wait_attempts (l1 ++ l2) = wait_attempts l1 ++ wait_attempts l2.
Proof. apply flat_map_app. Qed.

(** The loop makes one wait more than it counts iterations. *)
Lemma server_wait_bounded (env : Env) (fuel : nat) :
  forall (iterations : Z) (p : Proc),
    0 <= iterations <= 3 ->
    (Z.to_nat (4 - iterations) <= fuel)%nat ->
    exists iterations' p' evs,
      while_ fuel (server_wait_cond env) server_wait_body iterations p
      = Ok iterations' p' /\
      iterations <= iterations' <= 3 /\
      trace p' = trace p ++ evs /\
      wait_attempts evs
      = repeat (seconds 2) (Z.to_nat (iterations' - iterations + 1)) /\
      now p <= now p' <= now p + seconds 2 * (iterations' - iterations + 1).
Proof.
  induction fuel as [| k IH]; intros it p Hit Hfuel; [lia |].
  rewrite server_wait_step. cbv zeta.
  set (p1 := add_event (EvWaitForServer (seconds 2)) p).
  assert (Hone : forall t, now p <= t <= now p + seconds 2 ->
    exists it' p' evs, Ok (A := Z) it (set_now t p1) = Ok it' p' /\
      it <= it' <= 3 /\ trace p' = trace p ++ evs /\
      wait_attempts evs = repeat (seconds 2) (Z.to_nat (it' - it + 1)) /\
      now p <= now p' <= now p + seconds 2 * (it' - it + 1)).
  { intros t Ht. exists it, (set_now t p1), [EvWaitForServer (seconds 2)].
    split; [reflexivity |]. split; [lia |]. split; [reflexivity |].
    replace (it - it + 1) with 1 by lia. split; [reflexivity |].
    subst p1. proc_simpl. unfold seconds in *. lia. }
  assert (Hfail :
    exists it' p' evs,
      after_failed_wait env k it (set_now (now p + seconds 2) p1)
      = Ok it' p' /\
      it <= it' <= 3 /\ trace p' = trace p ++ evs /\
      wait_attempts evs = repeat (seconds 2) (Z.to_nat (it' - it + 1)) /\
      now p <= now p' <= now p + seconds 2 * (it' - it + 1)).
  { unfold after_failed_wait.
    destruct (reached (stop_at env) (now (set_now (now p + seconds 2) p1)));
      [apply Hone; unfold seconds; lia |].
    unfold max_iterations. destruct (Z.ltb_spec it 3) as [Hlt | Hge];
      [| apply Hone; unfold seconds; lia].
    destruct (IH (it + 1)
                (add_event (EvDebug waiting_text)
                   (set_now (now p + seconds 2) p1)))
      as (it' & p' & evs & Hrun & Hb & Htr & Hw & Hn); [lia | lia |].
    exists it', p',
      (EvWaitForServer (seconds 2) :: EvDebug waiting_text :: evs).
    split; [exact Hrun |]. split; [lia |]. split.
    - rewrite Htr. subst p1. proc_simpl. rewrite <- !app_assoc. reflexivity.
    - split.
      + cbn [wait_attempts flat_map app]. fold (wait_attempts evs). rewrite Hw.
        replace (Z.to_nat (it' - it + 1))
          with (S (Z.to_nat (it' - (it + 1) + 1))) by lia.
        reflexivity.
      + subst p1. proc_simpl. unfold seconds in *. lia. }
  destruct (server_at env) as [srv |]; [| exact Hfail].
  destruct (Z.leb_spec srv (now p + seconds 2)); [| exact Hfail].
  apply Hone. unfold seconds in *. lia.
Qed.

(** X3.  [createPointHeadClient] makes between one and four waits of two
    seconds: at most three when it returns, exactly four when it throws;
    it takes no longer than those waits. *)
Theorem createPointHeadClient_bounded (fuel : nat) (env : Env) (p : Proc) :
  exists p' evs n,
    trace p' = trace p ++ evs /\
    wait_attempts evs = repeat (seconds 2) n /\
    now p <= now p' <= now p + seconds 2 * Z.of_nat n /\
    ((createPointHeadClient (4 + fuel) env p = Ok tt p' /\ (1 <= n <= 3)%nat) \/
     (createPointHeadClient (4 + fuel) env p = Throw server_unavailable p' /\
      n = 4%nat)).
Proof.
  rewrite createPointHeadClient_eq.
  destruct (server_wait_bounded env (4 + fuel) 0
              (set_pointHeadClient (Some pointHeadAction)
                 (add_event (EvNewClient pointHeadAction) p)))
    as (it & p' & evs & Hrun & Hit & Htr & Hw & Hn); [lia | simpl; lia |].
  rewrite Hrun.
  exists p', (EvNewClient pointHeadAction :: evs), (Z.to_nat (it - 0 + 1)).
  split; [rewrite Htr; proc_simpl; rewrite <- app_assoc; reflexivity |].
  split; [exact Hw |].
  split; [proc_simpl; unfold seconds in *; lia |].
  unfold max_iterations. destruct (Z.eqb_spec it 3) as [-> | Hne].
  - right. split; reflexivity.
  - left. split; [reflexivity | lia].
Qed.

Lemma server_wait_connects (env : Env) (srv : Z) :
  server_at env = Some srv ->
  forall (fuel : nat) (iterations : Z) (p : Proc),
    0 <= iterations < 3 ->
    srv <= now p + seconds 2 * (3 - iterations) ->
    (Z.to_nat (3 - iterations) <= fuel)%nat ->
    exists iterations' p',
      while_ fuel (server_wait_cond env) server_wait_body iterations p
      = Ok iterations' p' /\
      iterations' < 3 /\
      pointHeadClient p' = pointHeadClient p /\
      (reached (stop_at env) srv = false -> now p' = Z.max (now p) srv).
Proof.
  intros Hsrv. induction fuel as [| k IH]; intros it p Hit Hle Hfuel; [lia |].
  rewrite server_wait_step. cbv zeta. rewrite Hsrv.
  destruct (Z.leb_spec srv (now p + seconds 2)) as [Hin | Hout].
  - eexists. eexists. split; [reflexivity |]. split; [lia |].
    split; reflexivity.
  - unfold after_failed_wait. proc_simpl.
    destruct (reached (stop_at env) (now p + seconds 2)) eqn:Hr.
    + eexists. eexists. split; [reflexivity |]. split; [lia |].
      split; [reflexivity |]. intros Hnot.
      rewrite (reached_mono (stop_at env) (now p + seconds 2) srv
                 ltac:(lia) Hnot) in Hr.
      discriminate Hr.
    + unfold max_iterations. unfold seconds in *.
      destruct (Z.ltb_spec it 3) as [_ | Hge]; [| lia].
      destruct (IH (it + 1)
                  (add_event (EvDebug waiting_text)
                     (set_now (now p + 2 * 1000000000)
                        (add_event (EvWaitForServer (2 * 1000000000)) p))))
        as (it' & p' & Hrun & Hlt & Hc & Hn);
        [lia | proc_simpl; lia | lia |].
      exists it', p'. split; [exact Hrun |]. split; [exact Hlt |].
      split; [exact Hc |]. intros Hnot. rewrite (Hn Hnot). proc_simpl. lia.
Qed.

(** X2.  A server that comes up no later than the end of the third wait is
    connected to: [createPointHeadClient] installs the client and returns
    without throwing, and, unless shutdown is requested first, it returns
    at the very instant the server is up. *)
Theorem createPointHeadClient_connects (fuel : nat) (env : Env) (p : Proc)
    (srv : Z) :
  server_at env = Some srv -> srv <= now p + seconds 6 -> (3 <= fuel)%nat ->
  exists p',
    createPointHeadClient fuel env p = Ok tt p' /\
    pointHeadClient p' = Some pointHeadAction /\
    (reached (stop_at env) srv = false -> now p' = Z.max (now p) srv).
Proof.
  intros Hsrv Hle Hfuel. rewrite createPointHeadClient_eq.
  destruct (server_wait_connects env srv Hsrv fuel 0
              (set_pointHeadClient (Some pointHeadAction)
                 (add_event (EvNewClient pointHeadAction) p)))
    as (it & p' & Hrun & Hit & Hc & Hn);
    [lia | proc_simpl; unfold seconds in *; lia | simpl; lia |].
  rewrite Hrun. exists p'.
  unfold max_iterations. destruct (Z.eqb_spec it 3); [lia |].
  split; [reflexivity |]. split; [exact Hc | exact Hn].
Qed.

Lemma createPointHeadClient_connects_witness :
  exists p',
    createPointHeadClient 3 Env_second_wait Proc_init = Ok tt p' /\
    pointHeadClient p' = Some pointHeadAction /\
    (reached (stop_at Env_second_wait) (seconds 3) = false ->
     now p' = Z.max (now Proc_init) (seconds 3)).
Proof.
  apply (createPointHeadClient_connects 3 Env_second_wait Proc_init (seconds 3)).
  - reflexivity.
  - vm_compute. discriminate.
  - lia.
Defined.

(** ** imageCallback and the clicks it serves *)

Lemma sent_goals_app (l1 l2 : list Event) :
  sent_goals (l1 ++ l2) = sent_goals l1 ++ sent_goals l2.
Proof. apply flat_map_app. Qed.

Lemma onMouse_click (e : MouseEvent) (p : Proc) (fx fy cx cy : double) :
  populated p fx fy cx cy ->
  onMouse (me_event e) (me_u e) (me_v e) (me_flags e) p
  = if is_button_down e
    then Ok tt (add_event (EvSendGoal (goal_of_click (now p) fx fy cx cy e))
                  (add_event (EvInfo (pixel_selected (me_u e) (me_v e))) p))
    else Ok tt p.
Proof.
  intros Hp. unfold is_button_down.
  destruct (Z.eqb_spec (me_event e) EVENT_LBUTTONDOWN) as [E | Hne].
  - rewrite E. apply (onMouse_down _ _ _ p fx fy cx cy Hp).
  - now apply onMouse_other.
Qed.

Lemma deliver_mouse_goals (evs : list MouseEvent) (fx fy cx cy : double) :
  forall p, populated p fx fy cx cy ->
    exists p' new,
      deliver_mouse evs p = Ok tt p' /\
      trace p' = trace p ++ new /\
      sent_goals new
      = map (goal_of_click (now p) fx fy cx cy) (filter is_button_down evs) /\
      now p' = now p /\
      globals_kept p p'.
Proof.
  induction evs as [| e rest IH]; intros p Hp.
  - exists p, []. split; [reflexivity |]. split; [symmetry; apply app_nil_r |].
    split; [reflexivity |]. split; [reflexivity | apply globals_kept_refl].
  - cbn [deliver_mouse filter].
    pose proof (onMouse_click e p fx fy cx cy Hp) as Hclick.
    destruct (is_button_down e).
    + set (p1 := add_event (EvSendGoal (goal_of_click (now p) fx fy cx cy e))
                   (add_event (EvInfo (pixel_selected (me_u e) (me_v e))) p))
        in *.
      assert (Hk1 : globals_kept p p1)
        by (eapply globals_kept_trans; apply globals_kept_event; reflexivity).
      rewrite (bind_Ok _ _ _ _ _ Hclick).
      destruct (IH p1 (populated_kept _ _ _ _ _ _ Hp Hk1))
        as (p' & new & Hrun & Htr & Hg & Hn & Hk).
      exists p',
        (EvInfo (pixel_selected (me_u e) (me_v e))
         :: EvSendGoal (goal_of_click (now p) fx fy cx cy e) :: new).
      split; [exact Hrun |]. split.
      * rewrite Htr. subst p1. proc_simpl. rewrite <- !app_assoc. reflexivity.
      * split; [cbn [sent_goals flat_map app map]; fold (sent_goals new);
                rewrite Hg; reflexivity |].
        split; [exact Hn | exact (globals_kept_trans _ _ _ Hk1 Hk)].
    + rewrite (bind_Ok _ _ _ _ _ Hclick). apply IH. exact Hp.
Qed.

(** X4.  An image that cannot be converted makes [imageCallback] throw before
    anything is shown, leaving the process as it was.  Showing an image on
    a calibrated, connected process takes 15 ms and sends one goal per
    button-down event received meanwhile, in the order of the clicks, each
    the projection of its own pixel; other mouse events send nothing. *)
Theorem imageCallback_goals (f : Frame) (p : Proc) (fx fy cx cy : double) :
  (decodable f = false -> imageCallback f p = Throw cv_exception p) /\
  (decodable f = true -> populated p fx fy cx cy ->
   exists p' new,
     imageCallback f p = Ok tt p' /\
     trace p' = trace p ++ EvImshow windowName :: EvWaitKey 15 :: new /\
     sent_goals new
     = map (goal_of_click (now p) fx fy cx cy)
         (filter is_button_down (mouse f)) /\
     now p' = now p + millis 15 /\
     globals_kept p p').
Proof.
  unfold imageCallback. split; intros Hd; rewrite Hd; [reflexivity |].
  intros Hp. rewrite !bind_log.
  set (p0 := add_event (EvWaitKey 15) (add_event (EvImshow windowName) p)).
  assert (Hk0 : globals_kept p p0)
    by (eapply globals_kept_trans; apply globals_kept_event; reflexivity).
  destruct (deliver_mouse_goals (mouse f) fx fy cx cy p0
              (populated_kept _ _ _ _ _ _ Hp Hk0))
    as (p1 & new & Hrun & Htr & Hg & Hn & Hk1).
  rewrite (bind_Ok _ _ _ _ _ Hrun).
  eexists. exists new. split; [reflexivity |].
  proc_simpl. split.
  - rewrite Htr. subst p0. proc_simpl. rewrite <- !app_assoc. reflexivity.
  - split; [exact Hg |]. split; [rewrite Hn; reflexivity |].
    eapply globals_kept_trans; [exact Hk0 |].
    eapply globals_kept_trans; [exact Hk1 | apply globals_kept_now].
Qed.

Lemma imageCallback_goals_witness :
  imageCallback Frame_broken Proc_example = Throw cv_exception Proc_example /\
  exists p' new,
    imageCallback Frame_clicks Proc_example = Ok tt p' /\
    trace p'
    = trace Proc_example ++ EvImshow windowName :: EvWaitKey 15 :: new /\
    sent_goals new
    = map (goal_of_click (now Proc_example) (Double.of_int 500)
             (Double.of_int 500) (Double.of_int 320) (Double.of_int 240))
        (filter is_button_down (mouse Frame_clicks)) /\
    now p' = now Proc_example + millis 15 /\
    globals_kept Proc_example p'.
Proof.
  split.
  - apply (proj1 (imageCallback_goals Frame_broken Proc_example
                    Double.zero Double.zero Double.zero Double.zero)).
    reflexivity.
  - apply (proj2 (imageCallback_goals Frame_clicks Proc_example
                    (Double.of_int 500) (Double.of_int 500)
                    (Double.of_int 320) (Double.of_int 240))).
    + reflexivity.
    + repeat split; discriminate.
Defined.

(** ** Calibrations the handler does not question *)

Lemma div_by_zero_not_finite (x : double) (s : bool) :
  is_finite (Double.div x (S754_zero s)) = false.
Proof. unfold Double.div. destruct x; reflexivity. Qed.

Lemma mul_one_not_finite (y : double) :
  is_finite y = false -> is_finite (Double.mul y Double.one) = false.
Proof.
  unfold Double.mul, Double.one.
  destruct y as [s | s | | s m e]; cbn; intros H;
    try discriminate H; reflexivity.
Qed.

(** X6.  [onMouse] does not check the focal length: when fx is zero the goal is
    sent all the same, with an x coordinate that is an infinity or a NaN,
    whatever the pixel. *)
Theorem onMouse_zero_focal (u v flags : Z) (p : Proc) (fx fy cx cy : double) :
  populated p fx fy cx cy ->
  Double.eqb fx Double.zero = true ->
  exists goal,
    onMouse EVENT_LBUTTONDOWN u v flags p
    = Ok tt (add_event (EvSendGoal goal)
               (add_event (EvInfo (pixel_selected u v)) p)) /\
    is_finite (point_x (point (target goal))) = false.
Proof.
  intros Hp Hz. eexists.
  split; [apply (onMouse_down u v flags p fx fy cx cy Hp) |].
  cbn [target point point_x project_spec].
  destruct fx as [s | s | | s m e];
    try (destruct s; discriminate Hz); try discriminate Hz.
  apply mul_one_not_finite, div_by_zero_not_finite.
Qed.

Lemma onMouse_zero_focal_witness :
  exists goal,
    onMouse EVENT_LBUTTONDOWN 420 240 0 Proc_zero_focal
    = Ok tt (add_event (EvSendGoal goal)
               (add_event (EvInfo (pixel_selected 420 240)) Proc_zero_focal)) /\
    is_finite (point_x (point (target goal))) = false.
Proof.
  apply (onMouse_zero_focal 420 240 0 Proc_zero_focal
           Double.zero (Double.of_int 500)
           (Double.of_int 320) (Double.of_int 240)).
  - repeat split; discriminate.
  - reflexivity.
Defined.

(** X7.  A click that follows a calibration message is projected with K[0],
    K[4], K[2] and K[5] of that message, whatever matrix the process held
    before. *)
Theorem calibrate_then_click (msg : CameraInfo) (u v flags : Z) (p : Proc) :
  pointHeadClient p <> None ->
  exists p1,
    getCameraIntrinsics msg p = Ok tt p1 /\
    onMouse EVENT_LBUTTONDOWN u v flags p1
    = Ok tt
        (add_event
           (EvSendGoal
              (goal_of_click (now p) (K_at msg 0) (K_at msg 4) (K_at msg 2)
                 (K_at msg 5)
                 {| me_event := EVENT_LBUTTONDOWN; me_u := u; me_v := v;
                    me_flags := flags |}))
           (add_event (EvInfo (pixel_selected u v)) p1)).
Proof.
  intros Hc. eexists. split; [apply getCameraIntrinsics_eq |].
  rewrite (onMouse_down u v flags
             (set_intrinsicsReceived true
                (set_cameraIntrinsics (intrinsics_of msg) p))
             (K_at msg 0) (K_at msg 4) (K_at msg 2) (K_at msg 5));
    [reflexivity | repeat split; exact Hc].
Qed.

Lemma calibrate_then_click_witness :
  exists p1,
    getCameraIntrinsics K_other Proc_example = Ok tt p1 /\
    onMouse EVENT_LBUTTONDOWN 8 1 0 p1
    = Ok tt
        (add_event
           (EvSendGoal
              (goal_of_click (now Proc_example) (K_at K_other 0)
                 (K_at K_other 4) (K_at K_other 2) (K_at K_other 5)
                 {| me_event := EVENT_LBUTTONDOWN; me_u := 8; me_v := 1;
                    me_flags := 0 |}))
           (add_event (EvInfo (pixel_selected 8 1)) p1)).
Proof.
  apply (calibrate_then_click K_other 8 1 0 Proc_example). discriminate.
Defined.

(** ** What a run of [main] can and cannot do *)

Lemma outcome_bind {A B : Type} (m : M A) (k : A -> M B) (p : Proc)
    (R : A -> Proc -> Prop) (T T' : string -> Proc -> Prop)
    (L L' : Proc -> Prop) (Q : B -> Proc -> Prop) :
  outcome (m p) R T L ->
  (forall w p', T w p' -> T' w p') ->
  (forall p', L p' -> L' p') ->
  (forall a p', R a p' -> outcome (k a p') Q T' L') ->
  outcome (bind m k p) Q T' L'.
Proof.
  unfold bind. destruct (m p) as [a p' | w p' | | p' |]; cbn; auto.
Qed.

Lemma outcome_weaken {A : Type} (r : Result A)
    (R R' : A -> Proc -> Prop) (T T' : string -> Proc -> Prop)
    (L L' : Proc -> Prop) :
  outcome r R T L ->
  (forall a p, R a p -> R' a p) ->
  (forall w p, T w p -> T' w p) ->
  (forall p, L p -> L' p) ->
  outcome r R' T' L'.
Proof. destruct r; cbn; auto. Qed.

Lemma reached_later (o : option Z) (t t' : Z) :
  t <= t' -> reached o t = true -> reached o t' = true.
Proof.
  destruct o as [s |]; [| discriminate]. cbn. intros Ht H.
  apply Z.leb_le in H. apply Z.leb_le. lia.
Qed.

Lemma reached_inv (o : option Z) (t : Z) :
  reached o t = true -> exists s, o = Some s /\ s <= t.
Proof.
  destruct o as [s |]; [| discriminate]. cbn. intros H.
  exists s. split; [reflexivity | now apply Z.leb_le].
Qed.

Lemma In_sent_goals (g : PointHeadGoal) (evs : list Event) :
  In (EvSendGoal g) evs -> In g (sent_goals evs).
Proof.
  intros H. unfold sent_goals. apply in_flat_map.
  exists (EvSendGoal g). split; [exact H | now left].
Qed.

Lemma goals_inv_extend (p p' : Proc) (new : list Event) :
  trace p' = trace p ++ new ->
  (forall g, In g (sent_goals new) -> look_goal g) ->
  goals_inv p -> goals_inv p'.
Proof.
  intros Htr Hnew Hp g Hg. rewrite Htr in Hg.
  apply in_app_or in Hg. destruct Hg as [Hg | Hg]; [now apply Hp |].
  now apply Hnew, In_sent_goals.
Qed.

Lemma goals_inv_trace (p p' : Proc) :
  trace p' = trace p -> goals_inv p -> goals_inv p'.
Proof. intros Htr Hp g Hg. rewrite Htr in Hg. now apply Hp. Qed.

Lemma goals_inv_event (e : Event) (p : Proc) :
  sent_goals [e] = [] -> goals_inv p -> goals_inv (add_event e p).
Proof.
  intros He. apply goals_inv_extend with (new := [e]); [reflexivity |].
  rewrite He. intros g [].
Qed.

Lemma look_goal_of_click (t : Z) (fx fy cx cy : double) (e : MouseEvent) :
  look_goal (goal_of_click t fx fy cx cy e).
Proof. repeat split. Qed.

Lemma goals_inv_init : goals_inv Proc_init.
Proof. intros g []. Qed.

(** The intrinsics wait is left on shutdown or with a calibrated matrix. *)
Lemma wait_intrinsics_post (env : Env) (fuel : nat) :
  forall p,
    (intrinsicsReceived p = true -> calibrated p) -> goals_inv p ->
    outcome (wait_intrinsics fuel env p)
      (fun _ p' =>
         (reached (stop_at env) (now p') = true \/ calibrated p') /\
         goals_inv p')
      (fun _ _ => False) (fun _ => False).
Proof.
  unfold wait_intrinsics.
  induction fuel as [| k IH]; intros p Hcal Hg; [exact I |].
  rewrite intrinsics_wait_step.
  destruct (reached (stop_at env) (now p)) eqn:Hr; [cbn; auto |].
  destruct (intrinsicsReceived p) eqn:Hrecv; [cbn; auto |].
  apply IH.
  - unfold after_poll.
    destruct (camera_info env (now p)) as [msg |];
      [destruct (cameraInfoSub p) |]; proc_simpl; intros H;
      try congruence.
    now exists msg.
  - unfold after_poll.
    destruct (camera_info env (now p)) as [msg |];
      [destruct (cameraInfoSub p) |];
      repeat first
        [ apply goals_inv_event; [reflexivity |]
        | eapply goals_inv_trace; [reflexivity |] ];
      exact Hg.
Qed.

Lemma server_wait_safe (env : Env) (fuel : nat) :
  forall (iterations : Z) (p : Proc),
    goals_inv p ->
    outcome (while_ fuel (server_wait_cond env) server_wait_body iterations p)
      (fun _ p' => globals_kept p p' /\ now p <= now p' /\ goals_inv p')
      (fun _ _ => False) (fun _ => False).
Proof.
  induction fuel as [| k IH]; intros it p Hg; [exact I |].
  rewrite server_wait_step. cbv zeta.
  set (p1 := add_event (EvWaitForServer (seconds 2)) p).
  assert (Hk1 : globals_kept p p1) by now apply globals_kept_event.
  assert (Hg1 : goals_inv p1) by now apply goals_inv_event.
  assert (Hone : forall t, now p <= t ->
            globals_kept p (set_now t p1) /\ now p <= now (set_now t p1) /\
            goals_inv (set_now t p1)).
  { intros t Ht. split; [| split; [exact Ht |]].
    - eapply globals_kept_trans; [exact Hk1 | apply globals_kept_now].
    - eapply goals_inv_trace; [| exact Hg1]. reflexivity. }
  assert (Hfail :
    outcome (after_failed_wait env k it (set_now (now p + seconds 2) p1))
      (fun _ p' => globals_kept p p' /\ now p <= now p' /\ goals_inv p')
      (fun _ _ => False) (fun _ => False)).
  { destruct (Hone (now p + seconds 2) ltac:(unfold seconds; lia))
      as (Hk2 & Hn2 & Hg2).
    unfold after_failed_wait.
    destruct (reached (stop_at env) (now (set_now (now p + seconds 2) p1)));
      [cbn; auto |].
    destruct (it <? max_iterations); [| cbn; auto].
    eapply outcome_weaken;
      [apply IH; apply goals_inv_event; [reflexivity | exact Hg2] | | auto | auto].
    intros _ p' (Hk & Hn & Hg'). split; [| split; [| exact Hg']].
    - eapply globals_kept_trans; [exact Hk2 |].
      eapply globals_kept_trans; [| exact Hk].
      now apply globals_kept_event.
    - proc_simpl. lia. }
  destruct (server_at env) as [srv |]; [| exact Hfail].
  destruct (srv <=? now p + seconds 2); [| exact Hfail].
  cbn [outcome]. apply Hone. lia.
Qed.

(** Whatever the environment and the loop budget, [createPointHeadClient]
    returns or throws [server_unavailable]; it installs the client and
    touches neither the calibration nor the subscription. *)
Lemma createPointHeadClient_safe (fuel : nat) (env : Env) (p : Proc) :
  goals_inv p ->
  let Q p' :=
    calibration_kept p p' /\ cameraInfoSub p' = cameraInfoSub p /\
    pointHeadClient p' = Some pointHeadAction /\ now p <= now p' /\
    goals_inv p' in
  outcome (createPointHeadClient fuel env p)
    (fun _ p' => Q p')
    (fun w p' => w = server_unavailable /\ Q p')
    (fun _ => False).
Proof.
  intros Hg Q. rewrite createPointHeadClient_eq.
  set (p0 := set_pointHeadClient (Some pointHeadAction)
               (add_event (EvNewClient pointHeadAction) p)).
  assert (Hg0 : goals_inv p0).
  { eapply goals_inv_trace with (p := add_event (EvNewClient pointHeadAction) p);
      [reflexivity | now apply goals_inv_event]. }
  pose proof (server_wait_safe env fuel 0 p0 Hg0) as H.
  destruct (while_ fuel (server_wait_cond env) server_wait_body 0 p0)
    as [it p' | w p' | | p' |]; cbn [outcome] in H; try contradiction;
    [| exact I].
  destruct H as ((Hk & Hc & Hsub) & Hn & Hg').
  assert (HQ : Q p').
  { subst Q. cbv beta. split; [| split; [exact Hsub | split; [exact Hc |]]].
    - eapply calibration_kept_trans; [| exact Hk].
      eapply calibration_kept_trans; [| apply calibration_kept_client].
      now apply calibration_kept_event.
    - split; [exact Hn | exact Hg']. }
  destruct (it =? max_iterations); cbn [outcome]; auto.
Qed.

Lemma imageCallback_outcome (f : Frame) (p : Proc) (fx fy cx cy : double) :
  populated p fx fy cx cy -> goals_inv p ->
  outcome (imageCallback f p)
    (fun _ p' => globals_kept p p' /\ now p <= now p' /\ goals_inv p')
    (fun w p' => w = cv_exception /\ p' = p)
    (fun _ => False).
Proof.
  intros Hp Hg. unfold imageCallback.
  destruct (decodable f); [| cbn; auto].
  rewrite !bind_log.
  set (p0 := add_event (EvWaitKey 15) (add_event (EvImshow windowName) p)).
  assert (Hk0 : globals_kept p p0)
    by (eapply globals_kept_trans; apply globals_kept_event; reflexivity).
  assert (Hg0 : goals_inv p0)
    by (repeat (apply goals_inv_event; [reflexivity |]); exact Hg).
  destruct (deliver_mouse_goals (mouse f) fx fy cx cy p0
              (populated_kept _ _ _ _ _ _ Hp Hk0))
    as (p1 & new & Hrun & Htr & Hsent & Hn & Hk1).
  rewrite (bind_Ok _ _ _ _ _ Hrun). cbn [modify outcome].
  split; [| split].
  - eapply globals_kept_trans; [exact Hk0 |].
    eapply globals_kept_trans; [exact Hk1 | apply globals_kept_now].
  - proc_simpl. rewrite Hn. subst p0. proc_simpl. unfold millis. lia.
  - eapply goals_inv_trace with (p := p1); [reflexivity |].
    apply (goals_inv_extend p0 p1 new Htr); [| exact Hg0].
    intros g Hin. rewrite Hsent in Hin. apply in_map_iff in Hin.
    destruct Hin as (e & <- & _). apply look_goal_of_click.
Qed.

Lemma dispatch_outcome (i : Incoming) (p : Proc) (fx fy cx cy : double) :
  populated p fx fy cx cy -> cameraInfoSub p = false -> goals_inv p ->
  outcome (dispatch i p)
    (fun _ p' => globals_kept p p' /\ now p <= now p' /\ goals_inv p')
    (fun w p' => w = cv_exception /\ p' = p)
    (fun _ => False).
Proof.
  intros Hp Hsub Hg. unfold dispatch. destruct (payload i) as [f | msg].
  - now apply imageCallback_outcome with (fx := fx) (fy := fy) (cx := cx) (cy := cy).
  - rewrite (deliver_camera_info_inactive msg p Hsub). cbn.
    split; [apply globals_kept_refl | split; [lia | exact Hg]].
Qed.

(** On a calibrated, connected process whose camera_info subscriber is shut
    down, [ros::spin()] returns only once shutdown is requested, throws
    only the image conversion error, and never returns only if shutdown is
    never requested. *)
Lemma spin_outcome (env : Env) (msgs : list Incoming) (fx fy cx cy : double) :
  forall p,
    populated p fx fy cx cy -> cameraInfoSub p = false -> goals_inv p ->
    outcome (spin env msgs p)
      (fun _ p' => goals_inv p' /\ exists s, stop_at env = Some s /\ s <= now p')
      (fun w p' => goals_inv p' /\ w = cv_exception)
      (fun p' => goals_inv p' /\ stop_at env = None).
Proof.
  induction msgs as [| i rest IH]; intros p Hp Hsub Hg; cbn [spin].
  - destruct (stop_at env) as [s |]; cbn [outcome].
    + split; [eapply goals_inv_trace; [| exact Hg]; reflexivity |].
      exists s. split; [reflexivity | proc_simpl; lia].
    + split; [exact Hg | reflexivity].
  - cbv zeta.
    destruct (reached (stop_at env) (Z.max (now p) (arrival i))) eqn:Hr.
    + destruct (reached_inv _ _ Hr) as (s & Hs & Hle). rewrite Hs.
      cbn [outcome].
      split; [eapply goals_inv_trace; [| exact Hg]; reflexivity |].
      exists s. split; [reflexivity | proc_simpl; lia].
    + set (q := set_now (Z.max (now p) (arrival i)) p).
      assert (Hq : globals_kept p q) by apply globals_kept_now.
      pose proof (populated_kept _ _ _ _ _ _ Hp Hq) as Hpq.
      assert (Hgq : goals_inv q)
        by (eapply goals_inv_trace; [| exact Hg]; reflexivity).
      eapply outcome_bind;
        [exact (dispatch_outcome i q fx fy cx cy Hpq Hsub Hgq) | | | ].
      * intros w p' (-> & ->). split; [exact Hgq | reflexivity].
      * intros p' [].
      * intros _ p' (Hk & _ & Hg').
        apply IH; [exact (populated_kept _ _ _ _ _ _ Hpq Hk) | | exact Hg'].
        destruct Hk as (_ & _ & E). rewrite E. exact Hsub.
Qed.

Lemma spin_stopped (env : Env) (msgs : list Incoming) (p : Proc) :
  reached (stop_at env) (now p) = true ->
  spin env msgs p = Ok tt p /\ exists s, stop_at env = Some s /\ s <= now p.
Proof.
  intros Hr. destruct (reached_inv _ _ Hr) as (s & Hs & Hle).
  split; [exact (spin_after_stop env s msgs p Hs Hle) | eauto].
Qed.

Lemma main_after_intrinsics_outcome (fuel : nat) (env : Env) (p : Proc) :
  reached (stop_at env) (now p) = true \/ calibrated p ->
  goals_inv p ->
  outcome (main_after_intrinsics fuel env p)
    (fun code p' =>
       goals_inv p' /\ code = EXIT_SUCCESS /\
       exists s, stop_at env = Some s /\ s <= now p')
    (fun w p' => goals_inv p' /\ (w = server_unavailable \/ w = cv_exception))
    (fun p' => goals_inv p' /\ stop_at env = None).
Proof.
  intros Hphase Hg. unfold main_after_intrinsics.
  rewrite bind_log, bind_modify.
  set (p1 := set_cameraInfoSub false
               (add_event (EvShutdownSubscriber cameraInfoTopic) p)).
  assert (Hg1 : goals_inv p1).
  { eapply goals_inv_trace
      with (p := add_event (EvShutdownSubscriber cameraInfoTopic) p);
      [reflexivity | now apply goals_inv_event]. }
  eapply outcome_bind; [exact (createPointHeadClient_safe fuel env p1 Hg1) | | | ].
  - intros w p' (-> & _ & _ & _ & _ & Hg'). split; [exact Hg' | now left].
  - intros p' [].
  - intros _ p2 ((Hm & _ & _) & Hsub & Hc & Hn & Hg2).
    rewrite !bind_log. cbv beta.
    match goal with
    | |- outcome (bind _ _ ?q) _ _ _ => set (p3 := q)
    end.
    assert (Hg3 : goals_inv p3)
      by (subst p3; repeat (apply goals_inv_event; [reflexivity |]); exact Hg2).
    assert (Hn3 : now p <= now p3) by (subst p3 p1; proc_simpl; exact Hn).
    assert (Hrest : forall p', goals_inv p' ->
              (exists s, stop_at env = Some s /\ s <= now p') ->
              outcome ((log (EvDestroyWindow windowName) ;; ret EXIT_SUCCESS) p')
                (fun code p'' =>
                   goals_inv p'' /\ code = EXIT_SUCCESS /\
                   exists s, stop_at env = Some s /\ s <= now p'')
                (fun w p'' =>
                   goals_inv p'' /\ (w = server_unavailable \/ w = cv_exception))
                (fun p'' => goals_inv p'' /\ stop_at env = None)).
    { intros p' Hg' Hs. rewrite bind_log. cbn [ret outcome].
      split; [now apply goals_inv_event | split; [reflexivity | exact Hs]]. }
    destruct (reached (stop_at env) (now p3)) eqn:Hr.
    + destruct (spin_stopped env (incoming env) p3 Hr) as (Hspin & Hs).
      rewrite (bind_Ok _ _ _ _ _ Hspin). now apply Hrest.
    + assert (Hcal : calibrated p).
      { destruct Hphase as [Hr0 | Hcal]; [| exact Hcal].
        rewrite (reached_later _ _ _ Hn3 Hr0) in Hr. discriminate Hr. }
      destruct Hcal as (msg & Hmsg).
      assert (Hpop : populated p3 (K_at msg 0) (K_at msg 4) (K_at msg 2)
                       (K_at msg 5)).
      { apply intrinsics_of_populated.
        - subst p3 p1. proc_simpl. rewrite Hm. proc_simpl. exact Hmsg.
        - subst p3. proc_simpl. rewrite Hc. discriminate. }
      assert (Hsub3 : cameraInfoSub p3 = false)
        by (subst p3 p1; proc_simpl; rewrite Hsub; reflexivity).
      eapply outcome_bind;
        [exact (spin_outcome env (incoming env) _ _ _ _ p3 Hpop Hsub3 Hg3) | | | ].
      * intros w p' (Hg' & ->). split; [exact Hg' | now right].
      * auto.
      * intros _ p' (Hg' & Hs). now apply Hrest.
Qed.

(** Every way a run of [main] can end. *)
Lemma run_outcome (fuel : nat) (env : Env) :
  outcome (run fuel env)
    (fun code p =>
       goals_inv p /\
       ((code = EXIT_FAILURE /\ clock_in_time env = false) \/
        (code = EXIT_SUCCESS /\ clock_in_time env = true /\
         exists s, stop_at env = Some s /\ s <= now p)))
    (fun w p => goals_inv p /\ (w = server_unavailable \/ w = cv_exception))
    (fun p => goals_inv p /\ stop_at env = None).
Proof.
  destruct (clock_in_time env) eqn:Hclock.
  - unfold clock_in_time in Hclock.
    destruct (valid_at env) as [tv |] eqn:Hv; [| discriminate].
    apply Z.leb_le in Hclock.
    rewrite (run_clock_valid fuel env tv Hv Hclock).
    assert (Hg : goals_inv (Proc_waiting (Z.max 0 tv))).
    { intros g [E | [E | [E | [E | []]]]]; discriminate E. }
    assert (Hc : intrinsicsReceived (Proc_waiting (Z.max 0 tv)) = true ->
                 calibrated (Proc_waiting (Z.max 0 tv)))
      by (intros E; discriminate E).
    eapply outcome_bind;
      [exact (wait_intrinsics_post env fuel _ Hc Hg) | | | ].
    + intros w p' [].
    + intros p' [].
    + intros _ p' (Hphase & Hg').
      eapply outcome_weaken;
        [exact (main_after_intrinsics_outcome fuel env p' Hphase Hg') | | auto | auto].
      intros code p'' (Hg'' & -> & Hs). split; [exact Hg'' |]. right. auto.
  - rewrite (run_clock_failure fuel env Hclock). cbn [outcome].
    split; [| now left].
    intros g [E | [E | [E | []]]]; discriminate E.
Qed.

(** X8.  No run of [main] reaches undefined behaviour: [onMouse] reads the
    intrinsic matrix and dereferences the client without checking either,
    but [main] lets it run only once both are set. *)
Theorem run_never_undefined (fuel : nat) (env : Env) :
  run fuel env <> Undefined.
Proof.
  intros E. pose proof (run_outcome fuel env) as H. rewrite E in H. exact H.
Qed.

Lemma run_never_undefined_witness : run 4 Env_two_calibrations <> Undefined.
Proof. exact (run_never_undefined 4 Env_two_calibrations). Defined.

(** X9.  An exit code of [main] tells what happened: the failure code means the
    time source was not valid in time, and the success code is returned only
    after shutdown was requested. *)
Theorem run_exit_code (fuel : nat) (env : Env) (code : Z) (p : Proc) :
  run fuel env = Ok code p ->
  (code = EXIT_FAILURE /\ clock_in_time env = false) \/
  (code = EXIT_SUCCESS /\ clock_in_time env = true /\
   exists s, stop_at env = Some s /\ s <= now p).
Proof.
  intros E. pose proof (run_outcome fuel env) as H. rewrite E in H.
  exact (proj2 H).
Qed.

Lemma run_exit_code_witness :
  exists code p,
    run 4 Env_prompt = Ok code p /\
    ((code = EXIT_FAILURE /\ clock_in_time Env_prompt = false) \/
     (code = EXIT_SUCCESS /\ clock_in_time Env_prompt = true /\
      exists s, stop_at Env_prompt = Some s /\ s <= now p)).
Proof.
  eexists. eexists. split; [vm_compute; reflexivity |].
  apply (run_exit_code 4 Env_prompt). vm_compute. reflexivity.
Defined.

(** X11.  Every goal a run ever sends asks to point the optical axis (0, 0, 1)
    of the camera frame at a point of depth 1 in that frame, with
    min_duration 0.5 s and max_velocity 1.0. *)
Theorem run_goals (fuel : nat) (env : Env) (p : Proc) (g : PointHeadGoal) :
  final_state (run fuel env) = Some p ->
  In (EvSendGoal g) (trace p) -> look_goal g.
Proof.
  intros E. pose proof (run_outcome fuel env) as H.
  destruct (run fuel env) as [code q | w q | | q |]; cbn in E, H;
    try discriminate E; injection E as <-; apply (proj1 H).
Qed.

Lemma run_goals_witness :
  exists p g,
    final_state (run 4 Env_two_calibrations) = Some p /\
    In (EvSendGoal g) (trace p) /\ look_goal g.
Proof.
  eexists. eexists. split; [vm_compute; reflexivity |].
  assert (forall a b : Prop, a -> (a -> b) -> a /\ b) as Hand by tauto.
  apply Hand.
  - vm_compute. repeat first [left; reflexivity | right].
  - apply (run_goals 4 Env_two_calibrations). vm_compute. reflexivity.
Defined.

(** ** The steady state *)

Lemma dispatch_decodable (i : Incoming) (p : Proc) (fx fy cx cy : double) :
  match payload i with
  | Image f => decodable f = true
  | Calibration _ => True
  end ->
  populated p fx fy cx cy -> cameraInfoSub p = false ->
  exists p', dispatch i p = Ok tt p' /\ globals_kept p p'.
Proof.
  intros Hd Hp Hsub. unfold dispatch. destruct (payload i) as [f | msg].
  - unfold imageCallback. rewrite Hd, !bind_log.
    set (p0 := add_event (EvWaitKey 15) (add_event (EvImshow windowName) p)).
    assert (Hk0 : globals_kept p p0)
      by (eapply globals_kept_trans; apply globals_kept_event; reflexivity).
    destruct (deliver_mouse_kept (mouse f) fx fy cx cy p0
                (populated_kept _ _ _ _ _ _ Hp Hk0)) as (p1 & Hrun & Hk1).
    rewrite (bind_Ok _ _ _ _ _ Hrun). eexists. split; [reflexivity |].
    eapply globals_kept_trans; [exact Hk0 |].
    eapply globals_kept_trans; [exact Hk1 | apply globals_kept_now].
  - exists p. split; [exact (deliver_camera_info_inactive msg p Hsub) |].
    apply globals_kept_refl.
Qed.

Lemma spin_decodable (env : Env) (s : Z) (fx fy cx cy : double) :
  stop_at env = Some s ->
  forall (msgs : list Incoming) (p : Proc),
    all_decodable msgs ->
    populated p fx fy cx cy -> cameraInfoSub p = false ->
    exists p', spin env msgs p = Ok tt p' /\ globals_kept p p' /\ s <= now p'.
Proof.
  intros Hs. induction msgs as [| i rest IH]; intros p Hall Hp Hsub;
    cbn [spin]; rewrite Hs.
  - eexists. split; [reflexivity |].
    split; [apply globals_kept_now | proc_simpl; lia].
  - cbv zeta. cbn [reached].
    destruct (Z.leb_spec s (Z.max (now p) (arrival i))) as [Hr | Hr].
    + eexists. split; [reflexivity |].
      split; [apply globals_kept_now | proc_simpl; lia].
    + set (q := set_now (Z.max (now p) (arrival i)) p).
      assert (Hq : globals_kept p q) by apply globals_kept_now.
      pose proof (populated_kept _ _ _ _ _ _ Hp Hq) as Hpq.
      inversion Hall as [| i' rest' Hi Hrest]; subst.
      destruct (dispatch_decodable i q fx fy cx cy Hi Hpq Hsub)
        as (q1 & Hrun & Hk1).
      rewrite (bind_Ok _ _ _ _ _ Hrun).
      destruct (IH q1 Hrest (populated_kept _ _ _ _ _ _ Hpq Hk1))
        as (p' & Hspin & Hk & Hn).
      * destruct Hk1 as (_ & _ & E). rewrite E. exact Hsub.
      * exists p'. split; [exact Hspin |]. split; [| exact Hn].
        exact (globals_kept_trans _ _ _ Hq (globals_kept_trans _ _ _ Hk1 Hk)).
Qed.

(** X12.  With a valid clock, a calibration message found at a poll, a server
    that is up within three waits and images that can all be converted, a
    run serves clicks until shutdown is requested and then returns the
    success code, the matrix of that message and the client still in
    place. *)
Theorem run_steady_state (fuel : nat) (env : Env) (tv srv s : Z) (k : nat)
    (msg : CameraInfo) :
  valid_at env = Some tv -> tv <= seconds 5 ->
  (forall j, (j < k)%nat ->
             camera_info env (Z.max 0 tv + Z.of_nat j * millis 200) = None) ->
  camera_info env (Z.max 0 tv + Z.of_nat k * millis 200) = Some msg ->
  reached (stop_at env) (Z.max 0 tv + Z.of_nat k * millis 200) = false ->
  server_at env = Some srv ->
  srv <= Z.max 0 tv + Z.of_nat (k + 1) * millis 200 + seconds 6 ->
  stop_at env = Some s ->
  all_decodable (incoming env) ->
  (k + 1 < fuel)%nat -> (3 <= fuel)%nat ->
  exists p,
    run fuel env = Ok EXIT_SUCCESS p /\
    cameraIntrinsics p = intrinsics_of msg /\
    pointHeadClient p = Some pointHeadAction /\
    s <= now p.
Proof.
  intros Hv Htv Hnone Hmsg Hok Hsrv Hle Hs Hall Hk Hfuel.
  rewrite (run_clock_valid fuel env tv Hv Htv).
  destruct (wait_intrinsics_first_message env msg k fuel
              (Proc_waiting (Z.max 0 tv)) eq_refl eq_refl Hnone Hmsg Hok Hk)
    as (p2 & Hwait & Hm & _ & _ & _ & Hn2).
  rewrite (bind_Ok _ _ _ _ _ Hwait).
  unfold main_after_intrinsics. rewrite bind_log, bind_modify.
  set (p1 := set_cameraInfoSub false
               (add_event (EvShutdownSubscriber cameraInfoTopic) p2)).
  assert (Hg1 : goals_inv p1).
  { pose proof (wait_intrinsics_post env fuel (Proc_waiting (Z.max 0 tv)))
      as Hpost.
    rewrite Hwait in Hpost. cbn [outcome] in Hpost.
    eapply goals_inv_trace
      with (p := add_event (EvShutdownSubscriber cameraInfoTopic) p2);
      [reflexivity |].
    apply goals_inv_event; [reflexivity |].
    apply Hpost; [intros E; discriminate E |].
    intros g [E | [E | [E | [E | []]]]]; discriminate E. }
  assert (Hrun : exists p3, createPointHeadClient fuel env p1 = Ok tt p3).
  { rewrite createPointHeadClient_eq.
    destruct (server_wait_connects env srv Hsrv fuel 0
                (set_pointHeadClient (Some pointHeadAction)
                   (add_event (EvNewClient pointHeadAction) p1)))
      as (it & p3 & Hrun & Hit & _);
      [lia
      | subst p1; proc_simpl; cbn [Proc_waiting now] in Hn2;
        unfold seconds, millis in *; lia
      | simpl; lia |].
    rewrite Hrun. exists p3.
    unfold max_iterations. destruct (Z.eqb_spec it 3); [lia | reflexivity]. }
  destruct Hrun as (p3 & Hrun).
  pose proof (createPointHeadClient_safe fuel env p1 Hg1) as Hsafe.
  rewrite Hrun in Hsafe. cbn [outcome] in Hsafe.
  destruct Hsafe as ((B1 & _ & _) & B5 & Hc3 & _ & _).
  rewrite (bind_Ok _ _ _ _ _ Hrun). rewrite !bind_log. cbv beta.
  match goal with
  | |- context [bind (spin _ _) _ ?q] => set (p4 := q)
  end.
  assert (Hpop : populated p4 (K_at msg 0) (K_at msg 4) (K_at msg 2) (K_at msg 5)).
  { apply intrinsics_of_populated.
    - subst p4 p1. proc_simpl. rewrite B1. exact Hm.
    - subst p4. proc_simpl. rewrite Hc3. discriminate. }
  assert (Hsub4 : cameraInfoSub p4 = false)
    by (subst p4 p1; proc_simpl; exact B5).
  destruct (spin_decodable env s _ _ _ _ Hs (incoming env) p4 Hall Hpop Hsub4)
    as (p5 & Hspin & ((C1 & _) & C2 & _) & Hn5).
  rewrite (bind_Ok _ _ _ _ _ Hspin). rewrite bind_log.
  eexists. split; [reflexivity |]. proc_simpl.
  split; [| split; [| exact Hn5]].
  - rewrite C1. subst p4 p1. proc_simpl. rewrite B1. exact Hm.
  - rewrite C2. subst p4. proc_simpl. exact Hc3.
Qed.

Lemma run_steady_state_witness :
  exists p,
    run 4 Env_two_calibrations = Ok EXIT_SUCCESS p /\
    cameraIntrinsics p = intrinsics_of K_example /\
    pointHeadClient p = Some pointHeadAction /\
    seconds 30 <= now p.
Proof.
  apply (run_steady_state 4 Env_two_calibrations 0 (seconds 1) (seconds 30) 2
           K_example).
  - reflexivity.
  - vm_compute. discriminate.
  - intros j Hj. destruct j as [| [| j]]; [reflexivity | reflexivity | lia].
  - reflexivity.
  - reflexivity.
  - reflexivity.
  - vm_compute. discriminate.
  - reflexivity.
  - repeat constructor.
  - lia.
  - lia.
Defined.

(** ** The handler has no guard of its own *)

(** X5.  [onMouse] checks neither the matrix nor the client: a button-down on a
    process whose matrix lacks one of the four entries it reads, or whose
    client is null, is undefined behaviour, while every other event is
    still ignored. *)
Theorem onMouse_needs_setup (event u v flags : Z) (p : Proc) :
  Mat_at (cameraIntrinsics p) 0 0 = None \/
  Mat_at (cameraIntrinsics p) 1 1 = None \/
  Mat_at (cameraIntrinsics p) 0 2 = None \/
  Mat_at (cameraIntrinsics p) 1 2 = None \/
  pointHeadClient p = None ->
  onMouse event u v flags p
  = if event =? EVENT_LBUTTONDOWN then Undefined else Ok tt p.
Proof.
  intros H. unfold onMouse.
  destruct (event =? EVENT_LBUTTONDOWN); [| reflexivity].
  unfold intrinsics_at, sendGoal, ros_Time_now, log, modify, gets, bind,
    lift_option, ret, undefined.
  cbn [negb cameraIntrinsics pointHeadClient add_event].
  destruct (Mat_at (cameraIntrinsics p) 0 2); [| reflexivity].
  cbn [cameraIntrinsics pointHeadClient add_event].
  destruct (Mat_at (cameraIntrinsics p) 0 0); [| reflexivity].
  cbn [cameraIntrinsics pointHeadClient add_event].
  destruct (Mat_at (cameraIntrinsics p) 1 2); [| reflexivity].
  cbn [cameraIntrinsics pointHeadClient add_event].
  destruct (Mat_at (cameraIntrinsics p) 1 1); [| reflexivity].
  cbn [cameraIntrinsics pointHeadClient add_event].
  destruct (pointHeadClient p); [| reflexivity].
  destruct H as [H | [H | [H | [H | H]]]]; discriminate H.
Qed.

Lemma onMouse_needs_setup_witness :
  onMouse EVENT_LBUTTONDOWN 420 240 0 Proc_uncalibrated = Undefined /\
  onMouse EVENT_LBUTTONDOWN 420 240 0 Proc_unconnected = Undefined /\
  onMouse EVENT_MOUSEMOVE 420 240 0 Proc_uncalibrated = Ok tt Proc_uncalibrated.
Proof.
  split; [| split].
  - apply (onMouse_needs_setup EVENT_LBUTTONDOWN 420 240 0 Proc_uncalibrated).
    left. reflexivity.
  - apply (onMouse_needs_setup EVENT_LBUTTONDOWN 420 240 0 Proc_unconnected).
    do 4 right. reflexivity.
  - apply (onMouse_needs_setup EVENT_MOUSEMOVE 420 240 0 Proc_uncalibrated).
    left. reflexivity.
Defined.
